(** * pyinterp: 2D binning, window functions, polygons and coordinates

    A shallow embedding of

    - [pyinterp/binning.hpp] (class [Binning2D<T>]),
    - [pyinterp/detail/math/window_functions.hpp] (namespace [window]),
    - [pyinterp/geodetic/polygon.hpp] (class [geodetic::Polygon]), and
    - [pyinterp/detail/geodetic/coordinates.hpp] (class
      [detail::geodetic::Coordinates]),

    together with the properties the specification states about them and
    properties read off the code.

    Conventions.

    - [Binning2D<T>] is a template.  The embedding is generic in the
      sample type [T] and in [double]: their arithmetic is the class
      [Binning2D.Scalar].  Theorems about the control structure of
      [push], [clear] and the queries hold for every instance.  The
      concrete statements are on IEEE binary64 (the primitive floats),
      which is [Binning2D<double>].
    - The window functions are embedded at [T = double], on IEEE binary64
      with one rounding per operation.  [std::cos], [std::pow], [sinc]
      and the constants [pi<T>()] and [two_pi<T>()] belong to libraries
      whose sources are not part of the development: they are
      parameters.
    - [boost::accumulators::accumulator_set] belongs to an external
      library.  An accumulator set is represented by the samples it has
      absorbed, oldest first; the extractors the properties evaluate
      (count, sum, mean, lazy variance) are functions of that history, the
      others are parameters.
    - The collaborators of the engine whose sources are not part of the
      development (the axis, the area weights, the angle normalisation,
      the argument checks) are an interface of the generic development,
      and are given a model that follows the specification where a
      concrete grid is needed.
    - Member functions that can raise run in a state and exception monad
      over the engine; the loops are folds over the samples.
    - The members of [Polygon] exchange Python objects through pybind11,
      an external library: its conversions are the class
      [Polygon.Python], and a member that can raise returns an exception
      or a value.  The points are of any type: the polygon stores them
      and never inspects them.
    - [Coordinates] is embedded over the real numbers: [double] is read
      as the reals, [std::sqrt], [std::asin], [std::acos] and [std::abs]
      as [sqrt], [asin], [acos] and [Rabs].  The functions of
      [pyinterp/detail/math.hpp] it calls, and
      [detail::geodetic::System], are parameters.  The one property
      stated about it is the symmetry of the conversions under a change
      of sign, which rounding does not affect. *)

From Stdlib Require Import ZArith List Bool Lia PrimFloat Uint63 Floats.
From Stdlib Require Import Reals Lra.
From stdpp Require Import base list strings.

(* ===================================================================== *)
(** * Window functions                                                    *)
(* ===================================================================== *)

Module window.
Section Window.
#[local] Set Warnings "-inexact-float".
Local Open Scope float_scope.

(** [pi<T>()] and [two_pi<T>()] of [pyinterp/detail/math.hpp], [std::cos]
    and [std::pow] of the C library, and [sinc] of
    [pyinterp/detail/math.hpp]: their sources are not part of the
    development. *)
Variable pi two_pi : float.
Variable cos : float -> float.
Variable pow : float -> float -> float.
Variable sinc : float -> float.

(** Known window functions. *)
Inductive Function : Set :=
| kBlackman
| kBlackmanHarris
| kFlatTop
| kHamming
| kLanczos
| kNuttall
| kParzen
| kParzenSWOT.

(** Hamming window function. *)
Definition hamming (d r : float) : float :=
  if d <=? r then
    0.53836 - 0.46164 * cos (pi * (d + r) / r)
  else 0.

(** Blackman window function. *)
Definition blackman (d r : float) : float :=
  if d <=? r then
    let ratio := (d + r) / r in
    (7938 / 18608) - (9240 / 18608) * cos (pi * ratio) +
    (1430 / 18608) * cos (two_pi * ratio)
  else 0.

(** Flat top window function. *)
Definition flat_top (d r : float) : float :=
  if d <=? r then
    let ratio := (d + r) / r in
    0.21557895 - 0.41663158 * cos (pi * ratio) +
    0.277263158 * cos (two_pi * ratio) -
    0.083578947 * cos (3 * pi * ratio) +
    0.006947368 * cos (4 * pi * ratio)
  else 0.

(** Nuttall window function. *)
Definition nuttall (d r : float) : float :=
  if d <=? r then
    let ratio := (d + r) / r in
    0.3635819 - 0.4891775 * cos (pi * ratio) +
    0.1365995 * cos (two_pi * ratio)
  else 0.

(** Blackman-Harris window function. *)
Definition blackman_harris (d r : float) : float :=
  if d <=? r then
    let ratio := (d + r) / r in
    0.35875 - 0.48829 * cos (pi * ratio) +
    0.14128 * cos (2 * pi * ratio) -
    0.01168 * cos (3 * pi * ratio)
  else 0.

(** Lanczos window function. *)
Definition lanczos (d r : float) : float :=
  if d <=? r then
    sinc (2 * (d + r) / (2 * r) - 1)
  else 0.

(** Parzen window function. *)
Definition parzen (d r : float) : float :=
  let ratio := d / r in
  let l := 2 * r in
  if d <=? l / 4 then
    1 - 6 * pow ratio 2 * (1 - ratio)
  else if (l / 2 <=? r) || (l / 4 <? d) then
    2 * pow (1 - ratio) 3
  else 0.

(** A window similar to the Parzen window used for SWOT products. *)
Definition parzen_swot (d r : float) : float :=
  let l := 2 * r in
  let ratio := (2 * d) / l in
  if d <=? l / 4 then
    1 - 6 * pow ratio 2 + 6 * pow ratio 3
  else if (d <=? l / 2) || (l / 4 <? d) then
    2 * pow (1 - ratio) 3
  else 0.

(** [WindowFunction<T>]: the constructor selects the function, the call
    operator applies it. *)
Definition WindowFunction (wf : Function) : float -> float -> float :=
  match wf with
  | kBlackman => blackman
  | kBlackmanHarris => blackman_harris
  | kFlatTop => flat_top
  | kLanczos => lanczos
  | kHamming => hamming
  | kNuttall => nuttall
  | kParzen => parzen
  | kParzenSWOT => parzen_swot
  end.

End Window.
End window.

(* ===================================================================== *)
(** * Collaborators of the binning engine                                 *)
(* ===================================================================== *)

(** [std::invalid_argument], the only exception [push] can raise. *)
Inductive exception : Set :=
| invalid_argument (what : string).

(** [pybind11::array_t<T>]: a shape and the elements in index order. *)
Record array_t (T : Type) : Type := mk_array {
  shape : list nat;
  data : list T
}.
Arguments mk_array {T} shape data.
Arguments shape {T} _.
Arguments data {T} _.

(** [a.ndim()]. *)
Definition ndim {T} (a : array_t T) : nat := length (shape a).

(** A 1-D array holding the elements of [l]. *)
Definition array1d {T} (l : list T) : array_t T :=
  mk_array [length l] l.

(** Modelled from the spec: [detail::check_array_ndim]
    ([pyinterp/detail/broadcast.hpp] is not among the sources).  The call
    lists triples (name, expected rank, array); section 4.4 and section 7
    of the specification require a shape-mismatch error when an input is
    not a 1-D sequence.  The first array of the wrong rank raises. *)
Fixpoint check_array_ndim {T} (args : list (string * nat * array_t T))
  : exception + unit :=
  match args with
  | [] => inr tt
  | (name, n, a) :: rest =>
      if Nat.eqb (ndim a) n then check_array_ndim rest
      else inl (invalid_argument name)
  end.

(** Modelled from the spec: [detail::check_ndarray_shape]
    ([pyinterp/detail/broadcast.hpp] is not among the sources).  The first
    array is compared with each of the others; section 4.4 and section 7
    require a shape-mismatch error when the lengths differ. *)
Fixpoint check_ndarray_shape {T} (name1 : string) (a1 : array_t T)
    (others : list (string * array_t T)) : exception + unit :=
  match others with
  | [] => inr tt
  | (name2, a2) :: rest =>
      if bool_decide (shape a1 = shape a2)
      then check_ndarray_shape name1 a1 rest
      else inl (invalid_argument name2)
  end.

(** [geodetic::System]: the two accessors the engine calls. *)
Record System (double : Type) : Type := mk_System {
  semi_major_axis : double;
  semi_minor_axis : double
}.
Arguments mk_System {double} _ _.
Arguments semi_major_axis {double} _.
Arguments semi_minor_axis {double} _.

(** The two area strategies [push] selects:
    [boost::geometry::strategy::area::cartesian<>] and
    [boost::geometry::strategy::area::geographic<>] over a spheroid. *)
Inductive Strategy (double : Type) : Type :=
| cartesian
| geographic (semi_major semi_minor : double).
Arguments cartesian {double}.
Arguments geographic {double} _ _.

(** [Point<double>(x, y)]. *)
Definition Point (double : Type) : Type := (double * double)%type.

(** The four weights [w00, w01, w10, w11] returned by [binning]. *)
Definition Weights (double : Type) : Type :=
  (double * double * double * double)%type.

Module Axis.

(** Modelled from the spec: the axis interface of section 4.1
    ([pyinterp/axis.hpp] and [pyinterp/detail/axis.hpp] are not among the
    sources).  [find_index] answers [-1] for the specification's "none";
    [coordinate_value] is [operator()]. *)
Record t (double : Type) : Type := mk {
  size : nat;
  coordinate_value : Z -> double;
  find_index : double -> bool -> Z;
  find_indexes : double -> option (Z * Z);
  is_angle : bool
}.
Arguments mk {double} _ _ _ _ _.
Arguments size {double} _.
Arguments coordinate_value {double} _ _.
Arguments find_index {double} _ _ _.
Arguments find_indexes {double} _ _.
Arguments is_angle {double} _.

(** What the engine relies on: an index an axis returns, other than
    "none", addresses one of its [size] elements. *)
Definition in_range {double} (a : t double) (i : Z) : Prop :=
  (0 <= i < Z.of_nat (size a))%Z.

Definition honours_contract {double} (a : t double) : Prop :=
  (forall v b, find_index a v b = (-1)%Z \/ in_range a (find_index a v b)) /\
  (forall v i0 i1, find_indexes a v = Some (i0, i1) ->
                   in_range a i0 /\ in_range a i1).

Section Model.
Context {double : Type}.
Variable dltb dleb : double -> double -> bool.
Variable dsub : double -> double -> double.
Variable normalize_angle : double -> double -> double -> double.
Variable c360 : double.
Variable d0 : double.

(** Modelled from the spec: the nearest-bin resolution of [find_index]
    (section 4.1; the axis is not among the sources).  Index of the
    element of [values] closest to [v], scanning from index [i]; a
    coordinate half-way between two elements goes to the upper one. *)
Fixpoint nearest (v : double) (values : list double) (i : Z) : Z :=
  match values with
  | [] => (-1)%Z
  | a :: rest =>
      match rest with
      | [] => i
      | b :: _ =>
          if dltb (dsub v a) (dsub b v) then i
          else nearest v rest (i + 1)%Z
      end
  end.

(** Modelled from the spec: the bracketing pair of [find_indexes]
    (section 4.1; the axis is not among the sources).  The pair
    [(i, i + 1)] with [values[i] <= v < values[i + 1]]; the last interval
    also holds its upper edge. *)
Fixpoint bracket (v : double) (values : list double) (i : Z)
  : option (Z * Z) :=
  match values with
  | [] => None
  | a :: rest =>
      match rest with
      | [] => None
      | b :: tl =>
          if dleb a v && (if tl is [] then dleb v b else dltb v b)
          then Some (i, (i + 1)%Z)
          else bracket v rest (i + 1)%Z
      end
  end.

(** Modelled from the spec: the normalisation an angular axis applies
    (section 4.1; the axis is not among the sources).  The coordinate is
    rewrapped into the period that starts at the first element before it
    is resolved. *)
Definition normalize_coordinate (values : list double) (angle : bool)
    (v : double) : double :=
  if angle then normalize_angle v (hd d0 values) c360 else v.

(** Modelled from the spec: the domain of an axis (sections 3 and 4.1;
    the axis is not among the sources).  The coordinate lies between the
    first and the last element. *)
Definition within_domain (values : list double) (angle : bool)
    (v : double) : bool :=
  let v := normalize_coordinate values angle v in
  match values with
  | [] => false
  | front :: _ => dleb front v && dleb v (List.last values front)
  end.

(** Modelled from the spec: an axis over the ascending coordinates
    [values] (section 4.1).  [find_index] resolves the nearest element
    and, when [bounded], snaps an out-of-range coordinate to the nearest
    edge instead of answering "none"; [find_indexes] answers the
    bracketing pair, or [None] outside the domain. *)
Definition from_values (values : list double) (angle : bool) : t double :=
  mk (length values)
     (fun i => nth (Z.to_nat i) values d0)
     (fun v bounded =>
        let v := normalize_coordinate values angle v in
        match values with
        | [] => (-1)%Z
        | front :: _ =>
            if dltb v front then
              if bounded then 0%Z else (-1)%Z
            else if dltb (List.last values front) v then
              if bounded then (Z.of_nat (length values) - 1)%Z else (-1)%Z
            else nearest v values 0
        end)
     (fun v => bracket (normalize_coordinate values angle v) values 0)
     angle.

End Model.
End Axis.

(* ===================================================================== *)
(** * The binning engine                                                  *)
(* ===================================================================== *)

Declare Scope member_scope.

Module Binning2D.

(** [template <typename T>]: an instantiation gives the element type [T]
    of the input arrays and of the accumulators, the type [double] of
    coordinates and weights, and their arithmetic. *)
Class Scalar (T double : Type) : Type := {
  (** [std::isnan]. *)
  isnan : T -> bool;
  (** The implicit conversion of a [T] to [double], and
      [static_cast<T>]. *)
  to_double : T -> double;
  of_double : double -> T;
  (** Multiplication of doubles, and the literal [360.0]. *)
  dmul : double -> double -> double;
  c360 : double;
  (** Arithmetic of [T] inside the accumulators; [of_count] converts a
      [std::size_t]. *)
  tzero : T;
  tadd : T -> T -> T;
  tsub : T -> T -> T;
  tmul : T -> T -> T;
  tdiv : T -> T -> T;
  of_count : nat -> T
}.

(** [detail::math::normalize_angle] and [detail::math::binning], which
    [push_linear] calls: their sources are not part of the development. *)
Class Geometry (double : Type) : Type := {
  normalize_angle : double -> double -> double -> double;
  binning :
    Strategy double -> Point double -> Point double -> Point double ->
    Weights double
}.

Section Generic.
Context {T double : Type}.
Context `{!Scalar T double} `{!Geometry double}.

(** ** Accumulators *)

(** [Accumulators]: a [boost::accumulators::accumulator_set] over the
    statistics count, kurtosis, max, mean, median (P-square), min,
    skewness, sum and lazy variance, represented by the samples absorbed
    so far, oldest first.  A default-constructed set has absorbed
    nothing. *)
Definition Accumulators : Type := list T.

(** [acc(value)]: absorb one sample. *)
Definition absorb (acc : Accumulators) (value : T) : Accumulators :=
  acc ++ [value].

(** The extractors whose values the properties speak of, as Boost
    documents them: [count] is the number of samples, [sum] their sum from
    zero, [mean] is [sum / count], the second moment is the sum of squares
    over [count], and the lazy variance is the second moment minus the
    square of the mean. *)
Definition accumulators_count (acc : Accumulators) : nat := length acc.

Definition accumulators_sum (acc : Accumulators) : T :=
  fold_left tadd acc tzero.

Definition accumulators_mean (acc : Accumulators) : T :=
  tdiv (accumulators_sum acc) (of_count (accumulators_count acc)).

Definition accumulators_moment2 (acc : Accumulators) : T :=
  tdiv (fold_left (fun m v => tadd m (tmul v v)) acc tzero)
       (of_count (accumulators_count acc)).

Definition accumulators_variance (acc : Accumulators) : T :=
  tsub (accumulators_moment2 acc)
       (tmul (accumulators_mean acc) (accumulators_mean acc)).

(** The remaining extractors of the external library, whose values no
    property speaks of: functions of the absorbed samples. *)
Variable accumulators_min accumulators_max : Accumulators -> T.
Variable accumulators_median : Accumulators -> T.
Variable accumulators_kurtosis accumulators_skewness : Accumulators -> T.

(** ** State *)

(** [Eigen::Matrix<Accumulators, Dynamic, Dynamic>]: rows are indexed by
    [ix], the entries of a row by [iy]. *)
Definition Matrix : Type := list (list Accumulators).

(** A matrix of default-constructed accumulators. *)
Definition new_matrix (rows cols : nat) : Matrix :=
  replicate rows (replicate cols []).

(** [acc_(ix, iy)(value)].  Eigen does not check the indices; the axis
    contract keeps them inside the matrix, and outside it the model leaves
    the matrix as it is. *)
Definition accumulate (acc : Matrix) (ix iy : Z) (value : T) : Matrix :=
  if (0 <=? ix)%Z && (0 <=? iy)%Z then
    alter (alter (fun a => absorb a value) (Z.to_nat iy)) (Z.to_nat ix) acc
  else acc.

(** The members of [Binning2D<T>]. *)
Record t : Type := mk {
  x_ : Axis.t double;
  y_ : Axis.t double;
  acc_ : Matrix;
  wgs_ : option (System double)
}.

Definition set_acc (self : t) (acc : Matrix) : t :=
  mk (x_ self) (y_ self) acc (wgs_ self).

(** Default constructor. *)
Definition make (x y : Axis.t double) (wgs : option (System double)) : t :=
  mk x y (new_matrix (Axis.size x) (Axis.size y)) wgs.

(** ** A state and exception monad for the member functions *)

Definition M (A : Type) : Type := t -> (exception + A) * t.

Definition ret {A} (a : A) : M A := fun self => (inr a, self).

Definition bind {A B} (m : M A) (k : A -> M B) : M B :=
  fun self =>
    match m self with
    | (inl e, self') => (inl e, self')
    | (inr a, self') => k a self'
    end.

(** A check that raises or passes; it does not touch the engine. *)
Definition lift {A} (r : exception + A) : M A := fun self => (r, self).

Definition get : M t := fun self => (inr self, self).

Definition modify (f : t -> t) : M unit := fun self => (inr tt, f self).

Notation "m1 ;; m2" := (bind m1 (fun _ => m2))
  (at level 100, m2 at level 200, right associativity) : member_scope.
Notation "x <~ m1 ;; m2" := (bind m1 (fun x => m2))
  (at level 100, m1 at next level, m2 at level 200, right associativity)
  : member_scope.
Local Open Scope member_scope.

(** ** Ingestion *)

(** The triples [(_x(idx), _y(idx), _z(idx))] for [idx = 0 .. x.size()-1]:
    the three arrays are read in lockstep, [push] having checked that they
    are 1-D and of one length. *)
Definition samples (x y z : array_t T) : list (T * T * T) :=
  zip (zip (data x) (data y)) (data z).

(** The body of the loop of [push_nearest]. *)
Definition nearest_step (x_axis y_axis : Axis.t double) (acc : Matrix)
    (sample : T * T * T) : Matrix :=
  let '(x, y, value) := sample in
  if negb (isnan value) then
    let ix := Axis.find_index x_axis (to_double x) true in
    let iy := Axis.find_index y_axis (to_double y) true in
    if negb (ix =? -1)%Z && negb (iy =? -1)%Z then
      accumulate acc ix iy value
    else acc
  else acc.

Definition push_nearest (x y z : array_t T) (self : t) : t :=
  let x_axis := x_ self in
  let y_axis := y_ self in
  set_acc self
    (fold_left (nearest_step x_axis y_axis) (samples x y z) (acc_ self)).

(** The weights of a sample in the cell [(ix0, ix1) x (iy0, iy1)]: the
    call of [detail::math::binning] in [push_linear]. *)
Definition corner_weights (strategy : Strategy double)
    (x_axis y_axis : Axis.t double) (x y : T) (ix0 ix1 iy0 iy1 : Z)
  : Weights double :=
  let x0 := Axis.coordinate_value x_axis ix0 in
  binning strategy
    (if Axis.is_angle x_axis
     then normalize_angle (to_double x) x0 c360
     else to_double x,
     to_double y)
    (x0, Axis.coordinate_value y_axis iy0)
    (Axis.coordinate_value x_axis ix1, Axis.coordinate_value y_axis iy1).

(** [static_cast<T>(value * weight)]: what a corner absorbs. *)
Definition contribution (value : T) (weight : double) : T :=
  of_double (dmul (to_double value) weight).

(** The body of the loop of [push_linear]. *)
Definition linear_step (strategy : Strategy double)
    (x_axis y_axis : Axis.t double) (acc : Matrix) (sample : T * T * T)
  : Matrix :=
  let '(x, y, value) := sample in
  if isnan value then acc
  else
    let x_indexes := Axis.find_indexes x_axis (to_double x) in
    let y_indexes := Axis.find_indexes y_axis (to_double y) in
    match x_indexes, y_indexes with
    | Some (ix0, ix1), Some (iy0, iy1) =>
        let '(w0, w1, w2, w3) :=
          corner_weights strategy x_axis y_axis x y ix0 ix1 iy0 iy1 in
        let acc := accumulate acc ix0 iy0 (contribution value w0) in
        let acc := accumulate acc ix0 iy1 (contribution value w1) in
        let acc := accumulate acc ix1 iy0 (contribution value w2) in
        accumulate acc ix1 iy1 (contribution value w3)
    | _, _ => acc
    end.

Definition push_linear (strategy : Strategy double) (x y z : array_t T)
    (self : t) : t :=
  let x_axis := x_ self in
  let y_axis := y_ self in
  set_acc self
    (fold_left (linear_step strategy x_axis y_axis) (samples x y z)
       (acc_ self)).

(** Inserts new values in the grid from Z values for X, Y data
    coordinates. *)
Definition push (x y z : array_t T) (simple : bool) : M unit :=
  lift (check_array_ndim [("x", 1, x); ("y", 1, y); ("z", 1, z)]) ;;
  lift (check_ndarray_shape "x" x [("y", y); ("z", z)]) ;;
  self <~ get ;;
  if simple then
    (* Nearest *)
    modify (push_nearest x y z)
  else
    match wgs_ self with
    | None =>
        (* Cartesian linear *)
        modify (push_linear cartesian x y z)
    | Some wgs =>
        (* Geographic linear *)
        let strategy :=
          geographic (semi_major_axis wgs) (semi_minor_axis wgs) in
        modify (push_linear strategy x y z)
    end.

(** Reset the statistics. *)
Definition clear (self : t) : t :=
  set_acc self (new_matrix (Axis.size (x_ self)) (Axis.size (y_ self))).

(** ** Queries *)

(** Calculation of a given statistical variable: [func] applied to the
    accumulator of every cell. *)
Definition calculate_statistics (func : Accumulators -> T) (self : t)
  : list (list T) :=
  map (fun row => map func row) (acc_ self).

(** Compute the count of points within each bin. *)
Definition count (self : t) : list (list T) :=
  calculate_statistics (fun a => of_count (accumulators_count a)) self.

(** Compute the minimum of values for points within each bin. *)
Definition min (self : t) : list (list T) :=
  calculate_statistics accumulators_min self.

(** Compute the maximum of values for points within each bin. *)
Definition max (self : t) : list (list T) :=
  calculate_statistics accumulators_max self.

(** Compute the mean of values for points within each bin. *)
Definition mean (self : t) : list (list T) :=
  calculate_statistics accumulators_mean self.

(** Compute the median of values for points within each bin. *)
Definition median (self : t) : list (list T) :=
  calculate_statistics accumulators_median self.

(** Compute the variance of values for points within each bin. *)
Definition variance (self : t) : list (list T) :=
  calculate_statistics accumulators_variance self.

(** Compute the kurtosis of values for points within each bin. *)
Definition kurtosis (self : t) : list (list T) :=
  calculate_statistics accumulators_kurtosis self.

(** Compute the skewness of values for points within each bin. *)
Definition skewness (self : t) : list (list T) :=
  calculate_statistics accumulators_skewness self.

(** Compute the sum of values for points within each bin. *)
Definition sum (self : t) : list (list T) :=
  calculate_statistics accumulators_sum self.

(** Gets the X-Axis and the Y-Axis. *)
Definition x (self : t) : Axis.t double := x_ self.
Definition y (self : t) : Axis.t double := y_ self.

(** ** Vocabulary of the properties *)

(** The accumulator of the cell [(ix, iy)]. *)
Definition cell (self : t) (ix iy : nat) : option Accumulators :=
  acc_ self !! ix ≫= (fun row => row !! iy).

(** The entry [(ix, iy)] of a dense array returned by a query. *)
Definition entry {A} (z : list (list A)) (ix iy : nat) : option A :=
  z !! ix ≫= (fun row => row !! iy).

(** A dense array has the shape [rows x cols]. *)
Definition has_shape {A} (z : list (list A)) (rows cols : nat) : Prop :=
  length z = rows /\ Forall (fun row => length row = cols) z.

(** The sum over all cells of the number of absorbed samples. *)
Definition total_count (acc : Matrix) : nat :=
  sum_list (map (fun row => sum_list (map accumulators_count row)) acc).

(** A sample that [push_nearest] accumulates: its value is not NaN and
    [find_index], called with clamping, resolves on both axes. *)
Definition resolved_nearest (x_axis y_axis : Axis.t double)
    (sample : T * T * T) : bool :=
  let '(x, y, value) := sample in
  negb (isnan value)
  && negb (Axis.find_index x_axis (to_double x) true =? -1)%Z
  && negb (Axis.find_index y_axis (to_double y) true =? -1)%Z.

(** A sample that [push_linear] accumulates: its value is not NaN and
    [find_indexes] resolves on both axes. *)
Definition resolved_linear (x_axis y_axis : Axis.t double)
    (sample : T * T * T) : bool :=
  let '(x, y, value) := sample in
  negb (isnan value)
  && bool_decide (is_Some (Axis.find_indexes x_axis (to_double x)))
  && bool_decide (is_Some (Axis.find_indexes y_axis (to_double y))).

(** The operations that change an engine.  An exception raised by [push]
    reaches the caller; the engine stays as [push] left it. *)
Inductive operation : Type :=
| do_push (x y z : array_t T) (simple : bool)
| do_clear.

Definition perform (self : t) (op : operation) : t :=
  match op with
  | do_push x y z simple => snd (push x y z simple self)
  | do_clear => clear self
  end.

Definition run (ops : list operation) (self : t) : t :=
  fold_left perform ops self.

(** The loop body [push] runs on the engine [self]: that of
    [push_nearest], or that of [push_linear] with the strategy the
    ellipsoid selects. *)
Definition loop_body (simple : bool) (self : t)
  : Matrix -> T * T * T -> Matrix :=
  if simple then nearest_step (x_ self) (y_ self)
  else
    match wgs_ self with
    | None => linear_step cartesian (x_ self) (y_ self)
    | Some wgs =>
        linear_step
          (geographic (semi_major_axis wgs) (semi_minor_axis wgs))
          (x_ self) (y_ self)
    end.

(** One call of [push] on a batch given by its samples: the three 1-D
    arrays hold the coordinates and the values in order. *)
Definition push_batch (simple : bool) (batch : list (T * T * T)) (self : t)
  : (exception + unit) * t :=
  push (array1d (batch.*1.*1)) (array1d (batch.*1.*2)) (array1d (batch.*2))
    simple self.

(** Successive calls of [push], one per batch. *)
Definition push_batches (simple : bool) (batches : list (list (T * T * T)))
    (self : t) : t :=
  fold_left (fun s batch => snd (push_batch simple batch s)) batches self.

(** The inputs [push] accepts: three 1-D arrays of one length. *)
Definition well_shaped_input (x y z : array_t T) : Prop :=
  ndim x = 1 /\ ndim y = 1 /\ ndim z = 1 /\
  shape x = shape y /\ shape x = shape z.

(** The accumulators form a grid of [x_->size()] by [y_->size()] cells. *)
Definition grid_shaped (self : t) : Prop :=
  has_shape (acc_ self) (Axis.size (x_ self)) (Axis.size (y_ self)).

End Generic.

Arguments Accumulators T : clear implicits.
Arguments Matrix T : clear implicits.
Arguments t T double : clear implicits.

End Binning2D.

(* ===================================================================== *)
(** * Area weights                                                        *)
(* ===================================================================== *)

Module math.
Section AreaWeights.
Context {double : Type}.
Variable dsub dmul ddiv : double -> double -> double.
Variable dabs : double -> double.

(** The area Boost.Geometry's geographic strategy gives, on the spheroid
    with the two semi-axes, to the box spanned by two corners: external
    library. *)
Variable geographic_area :
  double -> double -> Point double -> Point double -> double.

(** Modelled from the spec: the area a strategy gives the box spanned by
    the corners [p] and [q] (section 4.3; [detail::math::binning] is not
    among the sources).  The planar area is the product of the sides. *)
Definition box_area (strategy : Strategy double) (p q : Point double)
  : double :=
  match strategy with
  | cartesian => dabs (dmul (dsub (fst q) (fst p)) (dsub (snd q) (snd p)))
  | geographic a b => geographic_area a b p q
  end.

(** Modelled from the spec: [detail::math::binning]
    ([pyinterp/detail/math/binning.hpp] is not among the sources).
    Section 4.3: the point [p] partitions the cell with corners [p0] and
    [p1] into four rectangles, and the weights [w00, w01, w10, w11] of the
    corners [(x0,y0), (x0,y1), (x1,y0), (x1,y1)] are fractions of the area
    of the cell; each corner receives the rectangle opposite to it. *)
Definition binning (strategy : Strategy double) (p p0 p1 : Point double)
  : Weights double :=
  let '(x, y) := p in
  let '(x0, y0) := p0 in
  let '(x1, y1) := p1 in
  let total := box_area strategy p0 p1 in
  (ddiv (box_area strategy p p1) total,
   ddiv (box_area strategy (x, y0) (x1, y)) total,
   ddiv (box_area strategy (x0, y) (x, y1)) total,
   ddiv (box_area strategy p0 p) total).

End AreaWeights.

End math.

(* ===================================================================== *)
(** * The engine over IEEE binary64: [Binning2D<double>]                  *)
(* ===================================================================== *)

Module Float64.

(** Conversion of a [std::size_t] to [double]. *)
Definition of_count (n : nat) : float :=
  PrimFloat.of_uint63 (Uint63.of_Z (Z.of_nat n)).

Definition scalar : Binning2D.Scalar float float := {|
  Binning2D.isnan := PrimFloat.is_nan;
  Binning2D.to_double := fun v => v;
  Binning2D.of_double := fun v => v;
  Binning2D.dmul := PrimFloat.mul;
  Binning2D.c360 := 360%float;
  Binning2D.tzero := 0%float;
  Binning2D.tadd := PrimFloat.add;
  Binning2D.tsub := PrimFloat.sub;
  Binning2D.tmul := PrimFloat.mul;
  Binning2D.tdiv := PrimFloat.div;
  Binning2D.of_count := of_count
|}.

Section Engine.

(** External to the development, and without a model over binary64: the
    angle normalisation and the geographic area of Boost.Geometry. *)
Variable normalize_angle : float -> float -> float -> float.
Variable geographic_area :
  float -> float -> Point float -> Point float -> float.

(** The weights of the model, planar or over the given geographic area. *)
Definition geometry : Binning2D.Geometry float := {|
  Binning2D.normalize_angle := normalize_angle;
  Binning2D.binning :=
    math.binning PrimFloat.sub PrimFloat.mul PrimFloat.div PrimFloat.abs
      geographic_area
|}.

Definition axis (values : list float) (angle : bool) : Axis.t float :=
  Axis.from_values PrimFloat.ltb PrimFloat.leb PrimFloat.sub
    normalize_angle 360%float 0%float values angle.

Definition within_domain (values : list float) (v : float) : bool :=
  Axis.within_domain PrimFloat.leb normalize_angle 360%float 0%float
    values false v.

Definition engine : Type := Binning2D.t float float.

Definition make (x y : Axis.t float) (wgs : option (System float)) : engine :=
  Binning2D.make x y wgs.

Definition push (x y z : array_t float) (simple : bool)
  : Binning2D.M (T := float) (double := float) unit :=
  Binning2D.push (Scalar0 := scalar) (Geometry0 := geometry) x y z simple.

Definition corner_weights :
  Strategy float -> Axis.t float -> Axis.t float -> float -> float ->
  Z -> Z -> Z -> Z -> Weights float :=
  Binning2D.corner_weights (Scalar0 := scalar) (Geometry0 := geometry).

Definition linear_step :
  Strategy float -> Axis.t float -> Axis.t float ->
  list (list (list float)) -> float * float * float ->
  list (list (list float)) :=
  Binning2D.linear_step (Scalar0 := scalar) (Geometry0 := geometry).

(** The samples of a batch that are not NaN and lie within the domain of
    both axes, the axes being given by their coordinates. *)
Definition in_both_domains (xs ys : list float)
    (sample : float * float * float) : bool :=
  let '(x, y, value) := sample in
  negb (PrimFloat.is_nan value)
  && within_domain xs x && within_domain ys y.

(** The grid of the concrete scenarios of the specification: both axes
    over [0, 1, 2], no ellipsoid. *)
Definition grid : engine :=
  make (axis [0; 1; 2]%float false) (axis [0; 1; 2]%float false) None.

End Engine.

Definition count (self : engine) : list (list float) :=
  Binning2D.count (Scalar0 := scalar) self.

Definition sum (self : engine) : list (list float) :=
  Binning2D.sum (Scalar0 := scalar) self.

Definition mean (self : engine) : list (list float) :=
  Binning2D.mean (Scalar0 := scalar) self.

Definition variance (self : engine) : list (list float) :=
  Binning2D.variance (Scalar0 := scalar) self.

(** A planar grid over axes that are not angular calls neither the angle
    normalisation nor the geographic area.  The closed examples on such a
    grid take the following two functions in their place. *)
Definition no_wrap (x min circle : float) : float := x.

Definition no_ellipsoid (semi_major semi_minor : float)
    (p q : Point float) : float := nan.

End Float64.

(* ===================================================================== *)
(** * Collaborators over IEEE binary64, for the closed examples           *)
(* ===================================================================== *)

Module Binary64.
#[local] Set Warnings "-inexact-float".
Local Open Scope float_scope.

(** The largest integer that is at most [x].  A double of magnitude 2^52
    or more is an integer; it, the infinities and NaN are returned as they
    are. *)
Definition floor (x : float) : float :=
  let two52 := 4503599627370496 in
  let a := abs x in
  if a <? two52 then
    let nearest := (a + two52) - two52 in
    if 0 <=? x then
      if a <? nearest then nearest - 1 else nearest
    else
      if nearest <? a then - (nearest + 1) else - nearest
  else x.

(** Modelled from the spec: [detail::math::remainder]
    ([pyinterp/detail/math.hpp] is not among the sources), on binary64:
    the remainder of [x / y], between 0 and [y]. *)
Definition remainder (x y : float) : float := x - y * floor (x / y).

(** Modelled from the spec: [detail::math::normalize_angle]
    ([pyinterp/detail/math.hpp] is not among the sources), on binary64.
    Section 4.1: [x] rewrapped into the period of length [circle] that
    starts at [min]. *)
Definition normalize_angle (x min circle : float) : float :=
  remainder (x - min) circle + min.

(** Stands for [std::pow] in the closed examples, which raise to the
    powers 2 and 3 only: the product of two and of three factors. *)
Definition pow (x n : float) : float :=
  if n =? 2 then x * x
  else if n =? 3 then x * x * x
  else nan.

(** Stands in the closed examples for [std::cos] and [sinc], which the
    windows do not call outside the radius. *)
Definition not_called (x : float) : float := nan.

End Binary64.

(* ===================================================================== *)
(** * The calls a push makes on the accumulators                        *)
(* ===================================================================== *)

Section Calls.
Context {T double : Type}.
Context `{!Binning2D.Scalar T double} `{!Binning2D.Geometry double}.

(** The calls [acc_(ix, iy)(value)] the body of the loop of [push_nearest]
    makes on a sample, in order: none or one. *)
Definition nearest_calls (x_axis y_axis : Axis.t double)
    (sample : T * T * T) : list (Z * Z * T) :=
  let '(x, y, value) := sample in
  if negb (Binning2D.isnan value) then
    let ix := Axis.find_index x_axis (Binning2D.to_double x) true in
    let iy := Axis.find_index y_axis (Binning2D.to_double y) true in
    if negb (ix =? -1)%Z && negb (iy =? -1)%Z then [(ix, iy, value)]
    else []
  else [].

(** The calls [acc_(ix, iy)(value)] the body of the loop of [push_linear]
    makes on a sample, in order: none or four. *)
Definition linear_calls (strategy : Strategy double)
    (x_axis y_axis : Axis.t double) (sample : T * T * T)
  : list (Z * Z * T) :=
  let '(x, y, value) := sample in
  if Binning2D.isnan value then []
  else
    match Axis.find_indexes x_axis (Binning2D.to_double x),
          Axis.find_indexes y_axis (Binning2D.to_double y) with
    | Some (ix0, ix1), Some (iy0, iy1) =>
        let '(w0, w1, w2, w3) :=
          Binning2D.corner_weights strategy x_axis y_axis x y
            ix0 ix1 iy0 iy1 in
        [(ix0, iy0, Binning2D.contribution value w0);
         (ix0, iy1, Binning2D.contribution value w1);
         (ix1, iy0, Binning2D.contribution value w2);
         (ix1, iy1, Binning2D.contribution value w3)]
    | _, _ => []
    end.

(** The area strategy [push] selects in linear mode. *)
Definition area_strategy (self : Binning2D.t T double) : Strategy double :=
  match Binning2D.wgs_ self with
  | None => cartesian
  | Some wgs => geographic (semi_major_axis wgs) (semi_minor_axis wgs)
  end.

(** The calls one [push] makes on a sample. *)
Definition calls (simple : bool) (self : Binning2D.t T double)
    (sample : T * T * T) : list (Z * Z * T) :=
  if simple
  then nearest_calls (Binning2D.x_ self) (Binning2D.y_ self) sample
  else
    linear_calls (area_strategy self) (Binning2D.x_ self)
      (Binning2D.y_ self) sample.

(** One call [acc_(ix, iy)(value)]. *)
Definition apply_call (acc : Binning2D.Matrix T) (call : Z * Z * T)
  : Binning2D.Matrix T :=
  Binning2D.accumulate acc call.1.1 call.1.2 call.2.

(** The call addresses the cell [(ix, iy)]. *)
Definition addresses (ix iy : nat) (call : Z * Z * T) : bool :=
  (call.1.1 =? Z.of_nat ix)%Z && (call.1.2 =? Z.of_nat iy)%Z.

(** The values the cell [(ix, iy)] absorbs from a list of calls, in
    order. *)
Definition absorbed_by (ix iy : nat) (calls : list (Z * Z * T)) : list T :=
  (List.filter (addresses ix iy) calls).*2.

(** A sample that [push_nearest] accumulates in the cell [(ix, iy)]. *)
Definition lands_on (x_axis y_axis : Axis.t double) (ix iy : nat)
    (sample : T * T * T) : bool :=
  let '(x, y, value) := sample in
  negb (Binning2D.isnan value)
  && (Axis.find_index x_axis (Binning2D.to_double x) true =? Z.of_nat ix)%Z
  && (Axis.find_index y_axis (Binning2D.to_double y) true =? Z.of_nat iy)%Z.

End Calls.

(* ===================================================================== *)
(** * Geodetic polygons: [pyinterp/geodetic/polygon.hpp]                *)
(* ===================================================================== *)

Module Polygon.

(** The exceptions the members raise or let through: [std::invalid_argument],
    [std::runtime_error], [pybind11::cast_error], and
    [pybind11::error_already_set] for an error raised by the interpreter
    during a conversion. *)
Inductive exception : Set :=
| invalid_argument (what : string)
| runtime_error (what : string)
| cast_error
| error_already_set.

(** The conversions of pybind11 the members call, between Python objects
    and the values of the program: external library.  [cast_Point] is
    [item.cast<geodetic::Point>()], [cast_list] is
    [item.cast<pybind11::list>()]; [of_Point] and [of_list] are the
    conversions to a Python object that [append] and [make_tuple] apply.
    A [pybind11::list] and a [pybind11::tuple] are the sequences of their
    items. *)
Class Python (object Point : Type) : Type := {
  cast_Point : object -> exception + Point;
  cast_list : object -> exception + list object;
  of_Point : Point -> object;
  of_list : list object -> object
}.

Section Rings.
Context {Point : Type}.

(** [boost::geometry::model::polygon<Point>]: the exterior ring and the
    interior rings. *)
Record t : Type := mk {
  outer : list Point;
  inners : list (list Point)
}.

End Rings.

(** [try { ... } catch (const pybind11::cast_error&) { throw
    std::invalid_argument(what); }]: any other exception passes. *)
Definition catch_cast_error {A} (body : exception + A) (what : string)
  : exception + A :=
  match body with
  | inl cast_error => inl (invalid_argument what)
  | _ => body
  end.

(** [for (auto& item : items) { auto point = item.cast<Point>();
    boost::geometry::append(ring, point); }] *)
Fixpoint append_points {object Point : Type} {Python0 : Python object Point}
    (ring : list Point) (items : list object) : exception + list Point :=
  match items with
  | [] => inr ring
  | item :: rest =>
      match cast_Point item with
      | inl e => inl e
      | inr point => append_points (ring ++ [point]) rest
      end
  end.

(** The loop over [inners], from the position [index]: each item is cast
    to a list, and its points are appended to [rings[index]]. *)
Fixpoint append_inners {object Point : Type} {Python0 : Python object Point}
    (rings : list (list Point)) (index : nat) (inners : list object)
  : exception + list (list Point) :=
  match inners with
  | [] => inr rings
  | inner :: rest =>
      match cast_list inner with
      | inl e => inl e
      | inr points =>
          match append_points (default [] (rings !! index)) points with
          | inl e => inl e
          | inr ring => append_inners (<[index := ring]> rings) (S index) rest
          end
      end
  end.

(** Create a new instance from Python. *)
Definition make {object Point : Type} {Python0 : Python object Point}
    (outer inners : list object) : exception + @t Point :=
  match
    catch_cast_error (append_points [] outer)
      "outer must be a list of pyinterp.geodetic.Point"
  with
  | inl e => inl e
  | inr ring =>
      match inners with
      | [] => inr (mk ring [])
      | _ :: _ =>
          match
            catch_cast_error
              (append_inners (replicate (length inners) []) 0 inners)
              "inners must be a list of list of pyinterp.geodetic.Point"
          with
          | inl e => inl e
          | inr rings => inr (mk ring rings)
          end
      end
  end.

(** Get a tuple that fully encodes the state of this instance. *)
Definition getstate {object Point : Type} {Python0 : Python object Point}
    (self : @t Point) : list object :=
  let outer := fold_left (fun l item => l ++ [of_Point item]) (outer self) [] in
  let inners :=
    fold_left
      (fun l inner =>
         let buffer :=
           fold_left (fun b item => b ++ [of_Point item]) inner [] in
         l ++ [of_list buffer])
      (inners self) [] in
  [of_list outer; of_list inners].

(** Create a new instance from a registered state of an instance of this
    object.  The order in which the two arguments of the constructor are
    evaluated is not specified; the first is taken first. *)
Definition setstate {object Point : Type} {Python0 : Python object Point}
    (state : list object) : exception + @t Point :=
  match state with
  | [state0; state1] =>
      match cast_list state0 with
      | inl e => inl e
      | inr outer =>
          match cast_list state1 with
          | inl e => inl e
          | inr inners => make outer inners
          end
      end
  | _ => inl (runtime_error "invalid state")
  end.

(** ** Vocabulary of the properties *)

(** The item converts to the point. *)
Definition converts_to_point {object Point : Type}
    {Python0 : Python object Point}
    (item : object) (point : Point) : Prop :=
  cast_Point item = inr point.

(** The item converts to a list whose items convert to the points of the
    ring, one by one. *)
Definition converts_to_ring {object Point : Type}
    {Python0 : Python object Point}
    (item : object) (ring : list Point) : Prop :=
  exists items,
    cast_list item = inr items /\ Forall2 converts_to_point items ring.

(** The conversion of the item to a ring raises [e]: the conversion to a
    list raises it, or the first of the items of the list that does not
    convert to a point raises it. *)
Definition ring_raises {object Point : Type}
    {Python0 : Python object Point}
    (item : object) (e : exception) : Prop :=
  cast_list item = inl e \/
  exists good bad rest points,
    cast_list item = inr (good ++ bad :: rest) /\
    Forall2 converts_to_point good points /\
    cast_Point bad = inl e.

(** What the caller of the constructor sees of an exception [e] raised in
    a [try] block whose handler raises [invalid_argument] with the message
    [what]. *)
Definition seen_as (e : exception) (what : string) : exception :=
  match e with
  | cast_error => invalid_argument what
  | _ => e
  end.

End Polygon.

Module Python.

#[local] Set Warnings "-register-all".

(** Python values for the closed examples: an instance of
    [pyinterp.geodetic.Point] with its longitude and latitude, a list, or
    [None]. *)
Inductive value : Type :=
| point_value (point : float * float)
| list_value (items : list value)
| none_value.

(** The conversions over these values.  A value that is not a point raises
    [cast_error] when it is converted to a point; a value that is not a
    list raises an error of the interpreter when it is converted to a
    list. *)
Definition conversions : Polygon.Python value (float * float) := {|
  Polygon.cast_Point item :=
    match item with
    | point_value point => inr point
    | _ => inl Polygon.cast_error
    end;
  Polygon.cast_list item :=
    match item with
    | list_value items => inr items
    | _ => inl Polygon.error_already_set
    end;
  Polygon.of_Point := point_value;
  Polygon.of_list := list_value
|}.

(** A triangle with a triangular hole. *)
Definition triangle : @Polygon.t (float * float) :=
  Polygon.mk [(0, 0); (4, 0); (0, 4); (0, 0)]%float
    [[(1, 1); (2, 1); (1, 2); (1, 1)]%float].

End Python.

(* ===================================================================== *)
(** * Geodetic coordinates: [detail/geodetic/coordinates.hpp]           *)
(* ===================================================================== *)

Module Coordinates.
Section Coordinates.
Local Open Scope R_scope.

(** [detail::geodetic::System], whose source is not part of the
    development: the accessors the constructor calls, the default
    constructor (WGS84) and the constructor from a semi-major axis and a
    flattening. *)
Variable System : Type.
Variable semi_major_axis flattening first_eccentricity_squared : System -> R.
Variable WGS84 : System.
Variable new_System : R -> R -> System.

(** [math::sqr], [math::sincosd], [math::atan2d] and [math::degrees] of
    [pyinterp/detail/math.hpp], whose source is not part of the
    development. *)
Variable sqr : R -> R.
Variable sincosd : R -> R * R.
Variable atan2d : R -> R -> R.
Variable degrees : R -> R.

(** World Geodetic Coordinates System. *)
Record t : Type := mk {
  a_ : R; f_ : R; e2_ : R;
  a1_ : R; a2_ : R; a3_ : R; a4_ : R; a5_ : R; a6_ : R
}.

(** The constructor defaults the ellipsoid parameters to WGS84. *)
Definition make (system : option System) : t :=
  let _system := default WGS84 system in
  (* semi-major axis *)
  let a := semi_major_axis _system in
  (* flattening *)
  let f := flattening _system in
  (* first eccentricity squared *)
  let e2 := first_eccentricity_squared _system in
  let a1 := a * e2 in
  let a2 := a1 * a1 in
  let a3 := a1 * (e2 * 0.5) in
  let a4 := 2.5 * a2 in
  let a5 := a1 + a3 in
  let a6 := 1 - e2 in
  mk a f e2 a1 a2 a3 a4 a5 a6.

(** Gets the WGS used by this instance. *)
Definition system (self : t) : System := new_System (a_ self) (f_ self).

(** Converts Cartesian coordinates to geographic longitude, latitude and
    altitude. *)
Definition ecef_to_lla (self : t) (ecef : R * R * R) : R * R * R :=
  let '(x, y, z) := ecef in
  let zp := Rabs z in
  let w2 := sqr x + sqr y in
  let w := sqrt w2 in
  let inv_r2 := 1 / (w2 + sqr z) in
  let inv_r := sqrt inv_r2 in
  let s2 := sqr z * inv_r2 in
  let c2 := w2 * inv_r2 in
  let u := a2_ self * inv_r in
  let v := a3_ self - a4_ self * inv_r in
  let '(s, c, ss, lat) :=
    if Rgt_dec c2 0.3 then
      let s := (zp * inv_r) * (1 + c2 * (a1_ self + u + s2 * v) * inv_r) in
      let lat := asin s in
      let ss := s * s in
      let c := sqrt (1 - ss) in
      (s, c, ss, lat)
    else
      let c := (w * inv_r) * (1 - s2 * (a5_ self - u - c2 * v) * inv_r) in
      let lat := acos c in
      let ss := 1 - c * c in
      let s := sqrt ss in
      (s, c, ss, lat) in
  let g := 1 - e2_ self * ss in
  let rg := a_ self / sqrt g in
  let rf := a6_ self * rg in
  let u := w - rg * c in
  let v := zp - rf * s in
  let f := c * u + s * v in
  let m := c * v - s * u in
  let p := m / (rf / g + f) in
  let lat := lat + p in
  let lat := if Rlt_dec z 0 then - lat else lat in
  (atan2d y x, degrees lat, f + m * p * 0.5).

(** Converts geographic longitude, latitude and altitude to Cartesian
    coordinates. *)
Definition lla_to_ecef (self : t) (lla : R * R * R) : R * R * R :=
  let '(lon, lat, alt) := lla in
  let '(sinx, cosx) := sincosd lon in
  let '(siny, cosy) := sincosd lat in
  let n := a_ self / sqrt (1 - e2_ self * sqr siny) in
  ((n + alt) * cosy * cosx,
   (n + alt) * cosy * sinx,
   (n * (1 - e2_ self) + alt) * siny).

(** Transform points between two coordinate systems defined by the
    Coordinates instances this and target. *)
Definition transform (self target : t) (lla : R * R * R) : R * R * R :=
  ecef_to_lla target (lla_to_ecef self lla).

End Coordinates.
End Coordinates.

Module WGS84.
Local Open Scope R_scope.

(** For the closed examples: the functions of [pyinterp/detail/math.hpp]
    read over the reals, and the ellipsoid of WGS84. *)

(** The square. *)
Definition sqr (v : R) : R := v * v.

(** Degrees to radians, and radians to degrees. *)
Definition radians (angle : R) : R := angle * PI / 180.

Definition degrees (angle : R) : R := angle * 180 / PI.

(** The sine and the cosine of an angle in degrees. *)
Definition sincosd (angle : R) : R * R :=
  (sin (radians angle), cos (radians angle)).

(** The angle in degrees of the point [(x, y)]. *)
Definition atan2d (y x : R) : R :=
  if Rlt_dec 0 x then degrees (atan (y / x))
  else if Rlt_dec x 0 then
    if Rle_dec 0 y then degrees (atan (y / x)) + 180
    else degrees (atan (y / x)) - 180
  else if Rlt_dec 0 y then 90
  else if Rlt_dec y 0 then -90
  else 0.

(** A system given by its semi-major axis and its flattening [f]; its
    first eccentricity squared is [f * (2 - f)]. *)
Definition ellipsoid : Type := (R * R)%type.

Definition wgs84 : ellipsoid := (6378137, 1 / 298.257223563).

Definition first_eccentricity_squared (s : ellipsoid) : R :=
  s.2 * (2 - s.2).

(** The coordinates over the default system. *)
Definition coordinates : Coordinates.t :=
  Coordinates.make ellipsoid fst snd first_eccentricity_squared wgs84 None.

End WGS84.

(* ===================================================================== *)
(** * Properties of the engine, for every instance                        *)
(* ===================================================================== *)

Section Structure.
#[local] Set Default Proof Using "Type".
Context {T double : Type}.
Context `{!Binning2D.Scalar T double} `{!Binning2D.Geometry double}.

(** ** The matrix of accumulators *)

Lemma sum_list_map_alter {A} (g : A -> nat) (f : A -> A) (l : list A) i a :
  l !! i = Some a ->
  sum_list (map g (alter f i l)) + g a = sum_list (map g l) + g (f a).
Proof.
  revert i. induction l as [|b l IH]; intros [|i] Hi; simplify_eq/=.
  - lia.
  - specialize (IH i Hi). lia.
Qed.

Lemma has_shape_lookup (acc : Binning2D.Matrix T) rows cols ix iy :
  Binning2D.has_shape acc rows cols -> ix < rows -> iy < cols ->
  exists row a, acc !! ix = Some row /\ row !! iy = Some a.
Proof.
  intros [Hlen Hrows] Hix Hiy.
  destruct (lookup_lt_is_Some_2 acc ix) as [row Hrow]; [lia|].
  assert (length row = cols) as Hrow_len.
  { rewrite Forall_lookup in Hrows. exact (Hrows ix row Hrow). }
  destruct (lookup_lt_is_Some_2 row iy) as [a Ha]; [lia|].
  eauto.
Qed.

Lemma accumulate_shape (acc : Binning2D.Matrix T) rows cols ix iy v :
  Binning2D.has_shape acc rows cols ->
  Binning2D.has_shape (Binning2D.accumulate acc ix iy v) rows cols.
Proof.
  intros [Hlen Hrows]. unfold Binning2D.accumulate.
  destruct ((0 <=? ix)%Z && (0 <=? iy)%Z); [|by split].
  unfold Binning2D.Matrix, Binning2D.Accumulators in *.
  split.
  - by rewrite length_alter.
  - apply Forall_alter; [done|].
    intros row _ Hrow. by rewrite length_alter.
Qed.

Lemma accumulate_total_count (acc : Binning2D.Matrix T) rows cols ix iy v :
  Binning2D.has_shape acc rows cols ->
  (0 <= ix < Z.of_nat rows)%Z -> (0 <= iy < Z.of_nat cols)%Z ->
  Binning2D.total_count (Binning2D.accumulate acc ix iy v)
  = S (Binning2D.total_count acc).
Proof.
  intros Hshape Hix Hiy.
  destruct (has_shape_lookup acc rows cols (Z.to_nat ix) (Z.to_nat iy))
    as (row & a & Hrow & Ha); [done|lia|lia|].
  unfold Binning2D.accumulate, Binning2D.total_count.
  replace ((0 <=? ix)%Z && (0 <=? iy)%Z) with true
    by (symmetry; apply andb_true_iff; split; apply Z.leb_le; lia).
  pose proof (sum_list_map_alter
    (fun r => sum_list (map Binning2D.accumulators_count r))
    (alter (fun a => Binning2D.absorb a v) (Z.to_nat iy))
    acc (Z.to_nat ix) row Hrow) as Houter.
  pose proof (sum_list_map_alter Binning2D.accumulators_count
    (fun a => Binning2D.absorb a v) row (Z.to_nat iy) a Ha) as Hinner.
  cbv beta in Houter.
  assert (Binning2D.accumulators_count (Binning2D.absorb a v)
          = S (Binning2D.accumulators_count a)) as Habsorb.
  { unfold Binning2D.accumulators_count, Binning2D.absorb.
    rewrite length_app. simpl. lia. }
  unfold Binning2D.Matrix in *. cbv beta in Hinner. lia.
Qed.

Lemma nearest_step_shape x_axis y_axis (acc : Binning2D.Matrix T) rows cols
    sample :
  Binning2D.has_shape acc rows cols ->
  Binning2D.has_shape (Binning2D.nearest_step x_axis y_axis acc sample)
    rows cols.
Proof.
  intros Hshape. destruct sample as [[x y] value].
  unfold Binning2D.nearest_step.
  destruct (negb (Binning2D.isnan value)); [|done].
  destruct (_ && _); [|done].
  by apply accumulate_shape.
Qed.

Lemma linear_step_shape strategy x_axis y_axis (acc : Binning2D.Matrix T)
    rows cols sample :
  Binning2D.has_shape acc rows cols ->
  Binning2D.has_shape
    (Binning2D.linear_step strategy x_axis y_axis acc sample) rows cols.
Proof.
  intros Hshape. destruct sample as [[x y] value].
  unfold Binning2D.linear_step.
  destruct (Binning2D.isnan value); [done|].
  destruct (Axis.find_indexes x_axis _) as [[ix0 ix1]|]; [|done].
  destruct (Axis.find_indexes y_axis _) as [[iy0 iy1]|]; [|done].
  destruct (Binning2D.corner_weights _ _ _ _ _ _ _ _ _)
    as [[[w0 w1] w2] w3].
  by do 4 apply accumulate_shape.
Qed.

Lemma loop_body_shape simple (self : Binning2D.t T double)
    (acc : Binning2D.Matrix T) rows cols sample :
  Binning2D.has_shape acc rows cols ->
  Binning2D.has_shape (Binning2D.loop_body simple self acc sample)
    rows cols.
Proof.
  intros Hshape. unfold Binning2D.loop_body.
  destruct simple; [by apply nearest_step_shape|].
  destruct (Binning2D.wgs_ self); by apply linear_step_shape.
Qed.

Lemma fold_shape
    (step : Binning2D.Matrix T -> T * T * T -> Binning2D.Matrix T)
    rows cols :
  (forall acc sample, Binning2D.has_shape acc rows cols ->
                      Binning2D.has_shape (step acc sample) rows cols) ->
  forall batch acc,
    Binning2D.has_shape acc rows cols ->
    Binning2D.has_shape (fold_left step batch acc) rows cols.
Proof.
  intros Hstep batch. induction batch as [|sample batch IH]; intros acc Hacc.
  - exact Hacc.
  - simpl. apply IH, Hstep, Hacc.
Qed.

(** ** What [push] does with its arguments *)

Lemma well_shaped_input_dec (x y z : array_t T) :
  Binning2D.well_shaped_input x y z <->
  Nat.eqb (ndim x) 1 && Nat.eqb (ndim y) 1 && Nat.eqb (ndim z) 1
  && bool_decide (shape x = shape y) && bool_decide (shape x = shape z)
  = true.
Proof.
  unfold Binning2D.well_shaped_input.
  rewrite !andb_true_iff, !Nat.eqb_eq, !bool_decide_eq_true.
  split.
  - intros (Hx & Hy & Hz & Hxy & Hxz). repeat split; assumption.
  - intros ((((Hx & Hy) & Hz) & Hxy) & Hxz). repeat split; assumption.
Qed.

Lemma push_accepts (x y z : array_t T) simple (self : Binning2D.t T double) :
  Binning2D.well_shaped_input x y z ->
  Binning2D.push x y z simple self
  = (inr tt,
     Binning2D.set_acc self
       (fold_left (Binning2D.loop_body simple self) (Binning2D.samples x y z)
          (Binning2D.acc_ self))).
Proof.
  intros (Hx & Hy & Hz & Hxy & Hxz).
  unfold Binning2D.push, Binning2D.bind, Binning2D.lift, Binning2D.get,
    Binning2D.modify, Binning2D.loop_body.
  simpl. rewrite Hx, Hy, Hz. simpl.
  rewrite !bool_decide_eq_true_2 by done.
  destruct simple; [reflexivity|].
  destruct (Binning2D.wgs_ self); reflexivity.
Qed.

Lemma push_refuses (x y z : array_t T) simple (self : Binning2D.t T double) :
  ~ Binning2D.well_shaped_input x y z ->
  exists e, Binning2D.push x y z simple self = (inl e, self).
Proof.
  intros Hbad. rewrite well_shaped_input_dec in Hbad.
  unfold Binning2D.push, Binning2D.bind, Binning2D.lift. simpl.
  destruct (Nat.eqb (ndim x) 1); [|by eexists].
  destruct (Nat.eqb (ndim y) 1); [|by eexists].
  destruct (Nat.eqb (ndim z) 1); [|by eexists].
  simpl in *.
  destruct (bool_decide (shape x = shape y)); [|by eexists].
  destruct (bool_decide (shape x = shape z)); [|by eexists].
  by destruct Hbad.
Qed.

Lemma push_frame (x y z : array_t T) simple (self : Binning2D.t T double) :
  let self' := snd (Binning2D.push x y z simple self) in
  Binning2D.x_ self' = Binning2D.x_ self /\
  Binning2D.y_ self' = Binning2D.y_ self /\
  Binning2D.wgs_ self' = Binning2D.wgs_ self /\
  (Binning2D.grid_shaped self -> Binning2D.grid_shaped self').
Proof.
  destruct (decide (Binning2D.well_shaped_input x y z)) as [Hok|Hbad].
  - rewrite (push_accepts x y z simple self Hok). simpl.
    split; [done|]. split; [done|]. split; [done|].
    unfold Binning2D.grid_shaped. simpl. intros Hgrid.
    apply (fold_shape (Binning2D.loop_body simple self)); [|exact Hgrid].
    intros acc sample. apply loop_body_shape.
  - destruct (push_refuses x y z simple self Hbad) as [e ->]. by simpl.
Qed.

(** C7.  A call of [push] whose arguments are not three 1-D arrays of one
    length raises an exception, and the engine it leaves is the engine it
    received: no accumulator has absorbed anything, so every query answers
    as before the call. *)
Theorem push_shape_mismatch (x y z : array_t T) simple
    (self : Binning2D.t T double) :
  ~ Binning2D.well_shaped_input x y z ->
  let pushed := Binning2D.push x y z simple self in
  (exists e, fst pushed = inl e) /\
  snd pushed = self /\
  forall func,
    Binning2D.calculate_statistics func (snd pushed)
    = Binning2D.calculate_statistics func self.
Proof.
  intros Hbad pushed. unfold pushed.
  destruct (push_refuses x y z simple self Hbad) as [e He].
  rewrite He. simpl. split; [by exists e|]. split; [reflexivity|].
  intros func. reflexivity.
Qed.

(** ** The samples of a call *)

(** [samples] holds at [idx] the three elements the loops read at
    [idx]. *)
Lemma samples_lookup (x y z : array_t T) idx a b c :
  Binning2D.samples x y z !! idx = Some (a, b, c) <->
  data x !! idx = Some a /\ data y !! idx = Some b /\
  data z !! idx = Some c.
Proof.
  unfold Binning2D.samples. rewrite lookup_zip_with_Some. split.
  - intros ([a' b'] & c' & Heq & Hxy & Hz). inversion Heq; subst.
    apply lookup_zip_with_Some in Hxy as (a'' & b'' & Heq' & Hx & Hy).
    by inversion Heq'; subst.
  - intros (Hx & Hy & Hz). exists (a, b), c. split; [done|].
    split; [|done]. apply lookup_zip_with_Some. by exists a, b.
Qed.

(** For 1-D arrays of one shape that hold as many elements as the shape
    says, there is one sample per index below [x.size()]. *)
Lemma samples_length (x y z : array_t T) n :
  shape x = [n] -> length (data x) = n -> length (data y) = n ->
  length (data z) = n ->
  length (Binning2D.samples x y z) = n.
Proof.
  intros _ Hx Hy Hz. unfold Binning2D.samples.
  rewrite !length_zip_with. lia.
Qed.

(** ** Batches *)

Lemma samples_of_batch (batch : list (T * T * T)) :
  Binning2D.samples (array1d (batch.*1.*1)) (array1d (batch.*1.*2))
    (array1d (batch.*2)) = batch.
Proof.
  unfold Binning2D.samples, array1d. simpl.
  by rewrite !zip_fst_snd.
Qed.

Lemma batch_well_shaped (batch : list (T * T * T)) :
  Binning2D.well_shaped_input (array1d (batch.*1.*1))
    (array1d (batch.*1.*2)) (array1d (batch.*2)).
Proof.
  unfold Binning2D.well_shaped_input, array1d, ndim. simpl.
  rewrite !length_fmap. done.
Qed.

Lemma push_batch_accepts simple (batch : list (T * T * T))
    (self : Binning2D.t T double) :
  Binning2D.push_batch simple batch self
  = (inr tt,
     Binning2D.set_acc self
       (fold_left (Binning2D.loop_body simple self) batch
          (Binning2D.acc_ self))).
Proof.
  unfold Binning2D.push_batch.
  rewrite (push_accepts _ _ _ simple self (batch_well_shaped batch)).
  by rewrite samples_of_batch.
Qed.

Lemma loop_body_set_acc simple (self : Binning2D.t T double)
    (acc : Binning2D.Matrix T) :
  Binning2D.loop_body simple (Binning2D.set_acc self acc)
  = Binning2D.loop_body simple self.
Proof. reflexivity. Qed.

Lemma set_acc_acc (self : Binning2D.t T double) :
  Binning2D.set_acc self (Binning2D.acc_ self) = self.
Proof. by destruct self. Qed.

Lemma push_batches_fold simple (batches : list (list (T * T * T))) :
  forall self : Binning2D.t T double,
    Binning2D.push_batches simple batches self
    = Binning2D.set_acc self
        (fold_left (Binning2D.loop_body simple self) (concat batches)
           (Binning2D.acc_ self)).
Proof.
  induction batches as [|batch batches IH]; intros self.
  - simpl. symmetry. apply set_acc_acc.
  - unfold Binning2D.push_batches in *. simpl.
    rewrite push_batch_accepts. simpl.
    rewrite IH, loop_body_set_acc, fold_left_app. reflexivity.
Qed.

(** C8.  A data set pushed in one call, or split in order into
    consecutive batches pushed in successive calls, leaves the same
    engine: every accumulator has absorbed the same samples in the same
    order, so count, sum, mean and variance agree in every cell (and so
    does every other statistic). *)
Theorem push_batch_split simple (batches : list (list (T * T * T)))
    (self : Binning2D.t T double) :
  let one := Binning2D.push_batch simple (concat batches) self in
  let many := Binning2D.push_batches simple batches self in
  fst one = inr tt /\
  snd one = many /\
  Binning2D.count (snd one) = Binning2D.count many /\
  Binning2D.sum (snd one) = Binning2D.sum many /\
  Binning2D.mean (snd one) = Binning2D.mean many /\
  Binning2D.variance (snd one) = Binning2D.variance many.
Proof.
  intros one many.
  assert (snd one = many) as Hsame.
  { unfold one, many.
    rewrite push_batch_accepts, push_batches_fold. reflexivity. }
  split.
  - unfold one. by rewrite push_batch_accepts.
  - rewrite Hsame. repeat split.
Qed.

(** ** Sequences of operations *)

Lemma new_matrix_shape rows cols :
  Binning2D.has_shape (Binning2D.new_matrix (T := T) rows cols) rows cols.
Proof.
  unfold Binning2D.new_matrix. split.
  - apply length_replicate.
  - apply Forall_replicate, length_replicate.
Qed.

Lemma run_frame ops :
  forall self : Binning2D.t T double,
    Binning2D.x_ (Binning2D.run ops self) = Binning2D.x_ self /\
    Binning2D.y_ (Binning2D.run ops self) = Binning2D.y_ self /\
    Binning2D.wgs_ (Binning2D.run ops self) = Binning2D.wgs_ self /\
    (Binning2D.grid_shaped self ->
     Binning2D.grid_shaped (Binning2D.run ops self)).
Proof.
  induction ops as [|op ops IH]; intros self; [by simpl|].
  unfold Binning2D.run in *. simpl.
  destruct (IH (Binning2D.perform self op)) as (Hx & Hy & Hw & Hg).
  rewrite Hx, Hy, Hw.
  destruct op as [x y z simple|]; simpl.
  - destruct (push_frame x y z simple self) as (Hx' & Hy' & Hw' & Hg').
    simpl in Hx', Hy', Hw', Hg'. rewrite Hx', Hy', Hw'.
    split; [done|]. split; [done|]. split; [done|].
    intros Hs. apply Hg. simpl. by apply Hg'.
  - split; [done|]. split; [done|]. split; [done|].
    intros _. apply Hg. simpl.
    unfold Binning2D.grid_shaped, Binning2D.clear. simpl.
    apply new_matrix_shape.
Qed.

Lemma lookup_map {A B} (f : A -> B) (l : list A) i :
  map f l !! i = f <$> l !! i.
Proof.
  revert i. induction l as [|a l IH]; intros [|i]; simpl; auto.
Qed.

Lemma entry_map {A B} (f : A -> B) (m : list (list A)) ix iy :
  Binning2D.entry (map (fun row => map f row) m) ix iy
  = f <$> Binning2D.entry m ix iy.
Proof.
  unfold Binning2D.entry. rewrite lookup_map.
  destruct (m !! ix) as [row|]; [|reflexivity].
  apply lookup_map.
Qed.

Lemma entry_calculate_statistics func (self : Binning2D.t T double) ix iy :
  Binning2D.entry (Binning2D.calculate_statistics func self) ix iy
  = func <$> Binning2D.cell self ix iy.
Proof.
  unfold Binning2D.calculate_statistics.
  exact (entry_map func (Binning2D.acc_ self) ix iy).
Qed.

Lemma calculate_statistics_shape func (self : Binning2D.t T double) :
  Binning2D.grid_shaped self ->
  Binning2D.has_shape (Binning2D.calculate_statistics func self)
    (Axis.size (Binning2D.x_ self)) (Axis.size (Binning2D.y_ self)).
Proof.
  intros [Hlen Hrows]. unfold Binning2D.calculate_statistics. split.
  - by rewrite length_map.
  - clear Hlen.
    induction Hrows as [|row rows Hrow _ IH]; simpl; constructor.
    + by rewrite length_map.
    + exact IH.
Qed.

Lemma entry_replicate {A} (a : A) rows cols ix iy :
  ix < rows -> iy < cols ->
  Binning2D.entry (replicate rows (replicate cols a)) ix iy = Some a.
Proof.
  intros Hix Hiy. unfold Binning2D.entry.
  rewrite lookup_replicate_2 by done. simpl.
  by rewrite lookup_replicate_2.
Qed.

Lemma cell_clear (self : Binning2D.t T double) ix iy :
  ix < Axis.size (Binning2D.x_ self) ->
  iy < Axis.size (Binning2D.y_ self) ->
  Binning2D.cell (Binning2D.clear self) ix iy = Some [].
Proof.
  intros Hix Hiy.
  exact (entry_replicate [] _ _ ix iy Hix Hiy).
Qed.

(** C9.  Whatever operations an engine built from the axes [x] and [y]
    has gone through, after [clear()] the two axes are those given to the
    constructor, every query returns an array of [x.size()] by [y.size()]
    entries, [count()] is zero in every cell, and every statistic reads in
    every cell what it reads on an accumulator that has absorbed nothing. *)
Theorem clear_resets (x y : Axis.t double) wgs ops :
  let self :=
    Binning2D.clear (Binning2D.run ops (Binning2D.make x y wgs)) in
  Binning2D.x self = x /\
  Binning2D.y self = y /\
  (forall func,
     Binning2D.has_shape (Binning2D.calculate_statistics func self)
       (Axis.size x) (Axis.size y)) /\
  (forall ix iy,
     ix < Axis.size x -> iy < Axis.size y ->
     Binning2D.entry (Binning2D.count self) ix iy
     = Some (Binning2D.of_count 0) /\
     forall func,
       Binning2D.entry (Binning2D.calculate_statistics func self) ix iy
       = Some (func [])).
Proof.
  intros self.
  destruct (run_frame ops (Binning2D.make x y wgs)) as (Hx & Hy & _ & _).
  simpl in Hx, Hy.
  assert (Binning2D.x_ self = x) as Hxs by (unfold self; simpl; exact Hx).
  assert (Binning2D.y_ self = y) as Hys by (unfold self; simpl; exact Hy).
  split; [exact Hxs|]. split; [exact Hys|]. split.
  - intros func. rewrite <- Hxs, <- Hys.
    apply calculate_statistics_shape.
    unfold self, Binning2D.grid_shaped, Binning2D.clear. simpl.
    apply new_matrix_shape.
  - intros ix iy Hix Hiy.
    assert (Binning2D.cell self ix iy = Some []) as Hcell.
    { unfold self. apply cell_clear; [by rewrite Hx|by rewrite Hy]. }
    split.
    + unfold Binning2D.count.
      by rewrite entry_calculate_statistics, Hcell.
    + intros func. by rewrite entry_calculate_statistics, Hcell.
Qed.

(** ** Nearest mode *)

Lemma resolved_in_range (axis : Axis.t double) v :
  Axis.honours_contract axis ->
  (Axis.find_index axis v true =? -1)%Z = false ->
  Axis.in_range axis (Axis.find_index axis v true).
Proof.
  intros [Hindex _] Hresolved.
  apply Z.eqb_neq in Hresolved.
  destruct (Hindex v true) as [Hnone|Hin]; [contradiction|exact Hin].
Qed.

Lemma nearest_step_count x_axis y_axis (acc : Binning2D.Matrix T) sample :
  Axis.honours_contract x_axis -> Axis.honours_contract y_axis ->
  Binning2D.has_shape acc (Axis.size x_axis) (Axis.size y_axis) ->
  Binning2D.total_count (Binning2D.nearest_step x_axis y_axis acc sample)
  = Binning2D.total_count acc
    + (if Binning2D.resolved_nearest x_axis y_axis sample then 1 else 0).
Proof.
  intros Hx Hy Hshape. destruct sample as [[x y] value].
  unfold Binning2D.nearest_step, Binning2D.resolved_nearest.
  destruct (Binning2D.isnan value); simpl; [lia|].
  destruct (Axis.find_index x_axis (Binning2D.to_double x) true =? -1)%Z
    eqn:Hix; simpl; [lia|].
  destruct (Axis.find_index y_axis (Binning2D.to_double y) true =? -1)%Z
    eqn:Hiy; simpl; [lia|].
  rewrite (accumulate_total_count acc _ _ _ _ value Hshape
             (resolved_in_range x_axis _ Hx Hix)
             (resolved_in_range y_axis _ Hy Hiy)).
  lia.
Qed.

Lemma nearest_fold_count x_axis y_axis batch :
  Axis.honours_contract x_axis -> Axis.honours_contract y_axis ->
  forall acc : Binning2D.Matrix T,
    Binning2D.has_shape acc (Axis.size x_axis) (Axis.size y_axis) ->
    Binning2D.total_count
      (fold_left (Binning2D.nearest_step x_axis y_axis) batch acc)
    = Binning2D.total_count acc
      + length
          (List.filter (Binning2D.resolved_nearest x_axis y_axis) batch).
Proof.
  intros Hx Hy. induction batch as [|sample batch IH]; intros acc Hshape.
  - simpl. lia.
  - simpl fold_left. rewrite IH by by apply nearest_step_shape.
    rewrite nearest_step_count by done.
    simpl List.filter.
    destruct (Binning2D.resolved_nearest x_axis y_axis sample); simpl; lia.
Qed.

(** C1, as the engine has it.  In nearest mode a call of [push] adds to
    the sum of [count()] over all cells the number of samples whose value
    is not NaN and for which [find_index], called with clamping, resolves
    on both axes.  Nothing is raised for the other samples: they reach no
    cell. *)
Theorem nearest_count_conservation (x y z : array_t T)
    (self : Binning2D.t T double) :
  Binning2D.well_shaped_input x y z ->
  Binning2D.grid_shaped self ->
  Axis.honours_contract (Binning2D.x_ self) ->
  Axis.honours_contract (Binning2D.y_ self) ->
  let pushed := Binning2D.push x y z true self in
  fst pushed = inr tt /\
  Binning2D.total_count (Binning2D.acc_ (snd pushed))
  = Binning2D.total_count (Binning2D.acc_ self)
    + length
        (List.filter
           (Binning2D.resolved_nearest (Binning2D.x_ self)
              (Binning2D.y_ self))
           (Binning2D.samples x y z)).
Proof.
  intros Hinput Hgrid Hx Hy pushed. unfold pushed.
  rewrite (push_accepts x y z true self Hinput). simpl.
  split; [reflexivity|].
  by apply nearest_fold_count.
Qed.

(** ** Linear mode *)

Lemma linear_step_count strategy (x_axis y_axis : Axis.t double)
    (acc : Binning2D.Matrix T) sample :
  Axis.honours_contract x_axis -> Axis.honours_contract y_axis ->
  Binning2D.has_shape acc (Axis.size x_axis) (Axis.size y_axis) ->
  Binning2D.total_count
    (Binning2D.linear_step strategy x_axis y_axis acc sample)
  = Binning2D.total_count acc
    + (if Binning2D.resolved_linear x_axis y_axis sample then 4 else 0).
Proof.
  intros [_ Hx] [_ Hy] Hshape. destruct sample as [[x y] value].
  unfold Binning2D.linear_step, Binning2D.resolved_linear.
  destruct (Binning2D.isnan value); simpl; [lia|].
  destruct (Axis.find_indexes x_axis _) as [[ix0 ix1]|] eqn:Hxi;
    [|simpl; lia].
  destruct (Axis.find_indexes y_axis _) as [[iy0 iy1]|] eqn:Hyi;
    [|simpl; lia].
  rewrite !bool_decide_eq_true_2 by done. simpl.
  destruct (Binning2D.corner_weights _ _ _ _ _ _ _ _ _)
    as [[[w0 w1] w2] w3].
  destruct (Hx _ _ _ Hxi) as [Hix0 Hix1].
  destruct (Hy _ _ _ Hyi) as [Hiy0 Hiy1].
  unfold Axis.in_range in *.
  rewrite !(accumulate_total_count _ (Axis.size x_axis) (Axis.size y_axis))
    by (repeat apply accumulate_shape; done).
  lia.
Qed.


Lemma linear_fold_count strategy x_axis y_axis batch :
  Axis.honours_contract x_axis -> Axis.honours_contract y_axis ->
  forall acc : Binning2D.Matrix T,
    Binning2D.has_shape acc (Axis.size x_axis) (Axis.size y_axis) ->
    Binning2D.total_count
      (fold_left (Binning2D.linear_step strategy x_axis y_axis) batch acc)
    = Binning2D.total_count acc
      + 4 * length
              (List.filter (Binning2D.resolved_linear x_axis y_axis) batch).
Proof.
  intros Hx Hy. induction batch as [|sample batch IH]; intros acc Hshape.
  - simpl. lia.
  - simpl fold_left. rewrite IH by by apply linear_step_shape.
    rewrite linear_step_count by done.
    simpl List.filter.
    destruct (Binning2D.resolved_linear x_axis y_axis sample); simpl; lia.
Qed.

(** X3.  Count conservation in linear mode: a call of [push] adds to the
    sum of [count()] over all cells four times the number of samples
    whose value is not NaN and for which [find_indexes] resolves on both
    axes, whatever the ellipsoid. *)
Theorem linear_count_conservation (x y z : array_t T)
    (self : Binning2D.t T double) :
  Binning2D.well_shaped_input x y z ->
  Binning2D.grid_shaped self ->
  Axis.honours_contract (Binning2D.x_ self) ->
  Axis.honours_contract (Binning2D.y_ self) ->
  let pushed := Binning2D.push x y z false self in
  fst pushed = inr tt /\
  Binning2D.total_count (Binning2D.acc_ (snd pushed))
  = Binning2D.total_count (Binning2D.acc_ self)
    + 4 * length
            (List.filter
               (Binning2D.resolved_linear (Binning2D.x_ self)
                  (Binning2D.y_ self))
               (Binning2D.samples x y z)).
Proof.
  intros Hinput Hgrid Hx Hy pushed. unfold pushed.
  rewrite (push_accepts x y z false self Hinput). simpl.
  split; [reflexivity|].
  unfold Binning2D.loop_body.
  destruct (Binning2D.wgs_ self); by apply linear_fold_count.
Qed.

(** ** Samples without a value *)

Lemma loop_body_nan simple (self : Binning2D.t T double)
    (acc : Binning2D.Matrix T) x y value :
  Binning2D.isnan value = true ->
  Binning2D.loop_body simple self acc (x, y, value) = acc.
Proof.
  intros Hnan.
  unfold Binning2D.loop_body, Binning2D.nearest_step,
    Binning2D.linear_step.
  destruct simple; [by rewrite Hnan|].
  destruct (Binning2D.wgs_ self); by rewrite Hnan.
Qed.

(** X1.  A sample whose value is NaN is never accumulated, in nearest
    mode or in linear mode: a call of [push] on a batch whose values are
    all NaN succeeds and leaves the engine as it was. *)
Theorem nan_samples_skipped simple (batch : list (T * T * T))
    (self : Binning2D.t T double) :
  Forall (fun sample => Binning2D.isnan sample.2 = true) batch ->
  Binning2D.push_batch simple batch self = (inr tt, self).
Proof.
  intros Hnan. rewrite push_batch_accepts.
  assert (fold_left (Binning2D.loop_body simple self) batch
            (Binning2D.acc_ self) = Binning2D.acc_ self) as ->.
  { generalize (Binning2D.acc_ self).
    induction Hnan as [|[[x y] value] batch Hvalue _ IH]; intros acc.
    - reflexivity.
    - simpl in *. by rewrite loop_body_nan. }
  by rewrite set_acc_acc.
Qed.

(** ** The shape of the grid *)

(** X2.  The grid never changes shape: whatever calls of [push] and
    [clear] an engine built from the axes [x] and [y] has gone through,
    its axes and its ellipsoid are those given to the constructor and
    every query returns an array of [x.size()] by [y.size()] entries. *)
Theorem shape_never_changes (x y : Axis.t double) wgs ops :
  let self := Binning2D.run ops (Binning2D.make x y wgs) in
  Binning2D.x_ self = x /\
  Binning2D.y_ self = y /\
  Binning2D.wgs_ self = wgs /\
  forall func,
    Binning2D.has_shape (Binning2D.calculate_statistics func self)
      (Axis.size x) (Axis.size y).
Proof.
  intros self.
  destruct (run_frame ops (Binning2D.make x y wgs)) as (Hx & Hy & Hw & Hg).
  fold self in Hx, Hy, Hw, Hg. simpl in Hx, Hy, Hw.
  split; [exact Hx|]. split; [exact Hy|]. split; [exact Hw|].
  intros func. rewrite <- Hx, <- Hy.
  apply calculate_statistics_shape, Hg.
  unfold Binning2D.grid_shaped. simpl. apply new_matrix_shape.
Qed.

(** The loop body of [push_linear] reads the abscissa of a sample only
    through [find_indexes] and through the weights. *)
Lemma linear_step_abscissa strategy (x_axis y_axis : Axis.t double)
    (acc : Binning2D.Matrix T) (x1 x2 y value : T) :
  Axis.find_indexes x_axis (Binning2D.to_double x1)
  = Axis.find_indexes x_axis (Binning2D.to_double x2) ->
  (forall ix0 ix1 iy0 iy1,
     Binning2D.corner_weights strategy x_axis y_axis x1 y ix0 ix1 iy0 iy1
     = Binning2D.corner_weights strategy x_axis y_axis x2 y
         ix0 ix1 iy0 iy1) ->
  Binning2D.linear_step strategy x_axis y_axis acc (x1, y, value)
  = Binning2D.linear_step strategy x_axis y_axis acc (x2, y, value).
Proof.
  intros Hcell Hweights. unfold Binning2D.linear_step.
  rewrite <- Hcell.
  destruct (Axis.find_indexes x_axis _) as [[ix0 ix1]|]; [|reflexivity].
  destruct (Axis.find_indexes y_axis _) as [[iy0 iy1]|]; [|reflexivity].
  by rewrite <- Hweights.
Qed.

End Structure.

(* ===================================================================== *)
(** * The model of the axis                                               *)
(* ===================================================================== *)

Section AxisModel.
#[local] Set Default Proof Using "Type".
Context {double : Type}.
Variable dltb dleb : double -> double -> bool.
Variable dsub : double -> double -> double.
Variable normalize_angle : double -> double -> double -> double.
Variable c360 : double.
Variable d0 : double.

Lemma nearest_in_range v (values : list double) :
  values <> [] ->
  forall i,
    (i <= Axis.nearest dltb dsub v values i
       < i + Z.of_nat (length values))%Z.
Proof.
  induction values as [|a rest IH]; intros Hne i; [done|].
  simpl. destruct rest as [|b tl].
  - simpl. lia.
  - destruct (dltb (dsub v a) (dsub b v)).
    + simpl. lia.
    + specialize (IH ltac:(done) (i + 1)%Z). simpl in *. lia.
Qed.

Lemma bracket_in_range v (values : list double) :
  forall i i0 i1,
    Axis.bracket dltb dleb v values i = Some (i0, i1) ->
    (i <= i0)%Z /\ (i1 = i0 + 1)%Z /\ (i1 < i + Z.of_nat (length values))%Z.
Proof.
  induction values as [|a rest IH]; intros i i0 i1 Hfound; [done|].
  simpl in Hfound. destruct rest as [|b tl]; [done|].
  destruct (dleb a v && _).
  - inversion Hfound; subst. simpl. lia.
  - apply IH in Hfound. simpl in *. lia.
Qed.

(** The axis of the model keeps the contract the engine relies on. *)
Lemma from_values_contract (values : list double) angle :
  Axis.honours_contract
    (Axis.from_values dltb dleb dsub normalize_angle c360 d0 values angle).
Proof.
  split.
  - intros v bounded. unfold Axis.in_range. simpl.
    destruct values as [|front rest]; [by left|].
    set (values := front :: rest).
    assert (0 < Z.of_nat (length values))%Z by (simpl; lia).
    destruct (dltb _ front).
    { destruct bounded; [right; lia|by left]. }
    destruct (dltb _ _).
    { destruct bounded; [right; lia|by left]. }
    right.
    pose proof (nearest_in_range
      (Axis.normalize_coordinate normalize_angle c360 d0 values angle v)
      values ltac:(done) 0%Z).
    lia.
  - intros v i0 i1 Hfound. unfold Axis.in_range. simpl in *.
    apply bracket_in_range in Hfound. lia.
Qed.

End AxisModel.

(* ===================================================================== *)
(** * The concrete scenarios, over binary64                               *)
(* ===================================================================== *)

Section Scenarios.
#[local] Set Default Proof Using "Type".
Variable normalize_angle : float -> float -> float -> float.
Variable geographic_area :
  float -> float -> Point float -> Point float -> float.

(** C4.  On the grid with x-edges [0,1,2] and y-edges [0,1,2], without
    ellipsoid, the sample (0.5, 0.5, 10) pushed in linear mode resolves to
    the cell between the indices 0 and 1 on both axes, its four weights
    are all 0.25, each of the cells (0,0), (0,1), (1,0), (1,1) ends with
    count 1, sum 2.5 and mean 2.5, and every other cell with count 0. *)
Theorem linear_scenario :
  let axis := Float64.axis normalize_angle [0; 1; 2]%float false in
  let pushed :=
    Float64.push normalize_angle geographic_area
      (array1d [0.5]%float) (array1d [0.5]%float) (array1d [10]%float)
      false (Float64.grid normalize_angle) in
  Axis.find_indexes axis 0.5%float = Some (0, 1)%Z /\
  Float64.corner_weights normalize_angle geographic_area cartesian
    axis axis 0.5%float 0.5%float 0 1 0 1
  = (0.25, 0.25, 0.25, 0.25)%float /\
  fst pushed = inr tt /\
  Float64.count (snd pushed)
  = [[1; 1; 0]; [1; 1; 0]; [0; 0; 0]]%float /\
  Float64.sum (snd pushed)
  = [[2.5; 2.5; 0]; [2.5; 2.5; 0]; [0; 0; 0]]%float /\
  Binning2D.entry (Float64.mean (snd pushed)) 0 0 = Some 2.5%float /\
  Binning2D.entry (Float64.mean (snd pushed)) 0 1 = Some 2.5%float /\
  Binning2D.entry (Float64.mean (snd pushed)) 1 0 = Some 2.5%float /\
  Binning2D.entry (Float64.mean (snd pushed)) 1 1 = Some 2.5%float.
Proof.
  intros axis pushed.
  assert (Binning2D.acc_ (snd pushed)
          = [[[2.5]; [2.5]; []]; [[2.5]; [2.5]; []]; [[]; []; []]]%float)
    as Hacc by (vm_compute; reflexivity).
  split; [vm_compute; reflexivity|].
  split; [vm_compute; reflexivity|].
  split; [vm_compute; reflexivity|].
  unfold Float64.count, Float64.sum, Float64.mean, Binning2D.count,
    Binning2D.sum, Binning2D.mean, Binning2D.calculate_statistics.
  rewrite Hacc.
  repeat split; vm_compute; reflexivity.
Qed.

#[local] Set Warnings "-inexact-float".

(** The nearest-mode scenario of the specification: on the same grid the
    sample (0.4, 0.4, 7) reaches the cell (0,0) and no other. *)
Example nearest_scenario :
  let pushed :=
    Float64.push normalize_angle geographic_area
      (array1d [0.4]%float) (array1d [0.4]%float) (array1d [7]%float)
      true (Float64.grid normalize_angle) in
  fst pushed = inr tt /\
  Binning2D.acc_ (snd pushed)
  = [[[7]; []; []]; [[]; []; []]; [[]; []; []]]%float /\
  Binning2D.entry (Float64.mean (snd pushed)) 0 0 = Some 7%float.
Proof.
  intros pushed. repeat split; vm_compute; reflexivity.
Qed.

(** On binary64 the mean and the lazy variance of an accumulator that has
    absorbed nothing are NaN: zero divided by a zero count. *)
Example empty_mean_variance_nan :
  let grid := Float64.grid normalize_angle in
  Binning2D.entry (Float64.mean grid) 0 0 = Some nan /\
  Binning2D.entry (Float64.variance grid) 0 0 = Some nan /\
  Binning2D.entry (Float64.count grid) 0 0 = Some 0%float /\
  Binning2D.entry (Float64.sum grid) 0 0 = Some 0%float.
Proof.
  intros grid. repeat split; vm_compute; reflexivity.
Qed.

End Scenarios.

(* ===================================================================== *)
(** * Comparisons and signs on binary64                                   *)
(* ===================================================================== *)

Section Comparisons.
#[local] Set Default Proof Using "Type".



Lemma is_nan_spec (d : float) :
  is_nan d = true -> Prim2SF d = S754_nan.
Proof.
  unfold is_nan. rewrite FloatAxioms.eqb_spec. unfold SFeqb.
  destruct (Prim2SF d) as [s|s| |s m e]; simpl; try done.
  - by destruct s.
  - destruct s; rewrite Z.compare_refl, Pos.compare_cont_refl; done.
Qed.


(** A NaN compares false with everything. *)
Lemma nan_compares_false (d x : float) :
  is_nan d = true ->
  (d <=? x)%float = false /\ (x <=? d)%float = false /\
  (d <? x)%float = false /\ (x <? d)%float = false.
Proof.
  intros Hd%is_nan_spec.
  rewrite !ltb_spec, !leb_spec, Hd. unfold SFltb, SFleb. simpl.
  by destruct (Prim2SF x).
Qed.



End Comparisons.

(* ===================================================================== *)
(** * The planar weights on binary64                                      *)
(* ===================================================================== *)

Section PlanarWeights.
#[local] Set Default Proof Using "Type".
Variable normalize_angle : float -> float -> float -> float.
Variable geographic_area :
  float -> float -> Point float -> Point float -> float.


End PlanarWeights.

(* ===================================================================== *)
(** * Angular axes                                                        *)
(* ===================================================================== *)

Section AngularWrap.
#[local] Set Default Proof Using "Type".
Context {T double : Type}.
Context `{!Binning2D.Scalar T double} `{!Binning2D.Geometry double}.


End AngularWrap.

(* ===================================================================== *)
(** * Window functions outside the radius                                 *)
(* ===================================================================== *)

Section Windows.
#[local] Set Default Proof Using "Type".
Local Open Scope float_scope.
Variable pi two_pi : float.
Variable cos : float -> float.
Variable pow : float -> float -> float.
Variable sinc : float -> float.


(** X4.  A distance that is NaN is given the weight 0 by [hamming],
    [blackman], [flat_top], [nuttall], [blackman_harris], [lanczos] and
    [parzen_swot], whatever the radius: every guard fails, and
    [parzen_swot] reaches its last [return T(0)].  [parzen] returns 0 as
    well when [(2 * r) / 2 <= r] fails, and [2 * pow(1 - d / r, 3)] when
    it holds. *)
Theorem windows_nan_distance (d r : float) :
  is_nan d = true ->
  window.hamming pi cos d r = 0 /\
  window.blackman pi two_pi cos d r = 0 /\
  window.flat_top pi two_pi cos d r = 0 /\
  window.nuttall pi two_pi cos d r = 0 /\
  window.blackman_harris pi cos d r = 0 /\
  window.lanczos sinc d r = 0 /\
  window.parzen_swot pow d r = 0 /\
  window.parzen pow d r
  = if 2 * r / 2 <=? r then 2 * pow (1 - d / r) 3 else 0.
Proof.
  intros Hnan.
  destruct (nan_compares_false d r Hnan) as (Hguard & _).
  destruct (nan_compares_false d (2 * r / 4) Hnan) as (Hfirst & _ & _ & Hgt).
  destruct (nan_compares_false d (2 * r / 2) Hnan) as (Hhalf & _).
  unfold window.hamming, window.blackman, window.flat_top, window.nuttall,
    window.blackman_harris, window.lanczos, window.parzen,
    window.parzen_swot.
  rewrite Hguard, Hfirst, Hgt, Hhalf, !orb_false_r.
  do 7 (split; [reflexivity|]). reflexivity.
Qed.

End Windows.

(* ===================================================================== *)
(** * What a cell holds after a push                                    *)
(* ===================================================================== *)

Section CellHistory.
#[local] Set Default Proof Using "Type".
Context {T double : Type}.
Context `{!Binning2D.Scalar T double} `{!Binning2D.Geometry double}.

Lemma entry_alter {A} (f : A -> A) (m : list (list A)) (a b i j : nat) :
  Binning2D.entry (alter (alter f b) a m) i j
  = if bool_decide (a = i /\ b = j)
    then f <$> Binning2D.entry m i j
    else Binning2D.entry m i j.
Proof.
  unfold Binning2D.entry.
  destruct (decide (a = i)) as [->|Ha].
  - rewrite list_lookup_alter_eq.
    destruct (m !! i) as [row|]; simpl; [|by destruct (bool_decide _)].
    destruct (decide (b = j)) as [->|Hb].
    + rewrite list_lookup_alter_eq. by rewrite bool_decide_eq_true_2.
    + rewrite list_lookup_alter_ne by done.
      rewrite bool_decide_eq_false_2; [done|]. by intros [_ ?].
  - rewrite list_lookup_alter_ne by done.
    rewrite bool_decide_eq_false_2; [done|]. by intros [? _].
Qed.

Lemma entry_accumulate (acc : Binning2D.Matrix T) ix iy v i j :
  Binning2D.entry (Binning2D.accumulate acc ix iy v) i j
  = (fun held => held ++ absorbed_by i j [(ix, iy, v)])
    <$> Binning2D.entry acc i j.
Proof.
  assert (Binning2D.entry acc i j
          = (fun held => held ++ []) <$> Binning2D.entry acc i j) as Hsame.
  { destruct (Binning2D.entry acc i j); simpl; by rewrite ?app_nil_r. }
  unfold Binning2D.accumulate, absorbed_by, addresses. simpl.
  destruct (Z.leb_spec 0 ix) as [Hix|Hix], (Z.leb_spec 0 iy) as [Hiy|Hiy];
    simpl.
  - unfold Binning2D.Matrix, Binning2D.Accumulators in *.
    rewrite entry_alter. unfold Binning2D.absorb.
    case_bool_decide as Hcell.
    + destruct Hcell as [<- <-]. rewrite !Z2Nat.id, !Z.eqb_refl by done.
      done.
    + destruct (Z.eqb_spec ix (Z.of_nat i)) as [->|Hi],
        (Z.eqb_spec iy (Z.of_nat j)) as [->|Hj]; simpl; try done.
      rewrite !Nat2Z.id in Hcell. by destruct Hcell.
  - destruct (Z.eqb_spec iy (Z.of_nat j)) as [->|Hj]; [lia|].
    by rewrite andb_false_r.
  - by destruct (Z.eqb_spec ix (Z.of_nat i)) as [->|Hi]; [lia|].
  - by destruct (Z.eqb_spec ix (Z.of_nat i)) as [->|Hi]; [lia|].
Qed.

Lemma absorbed_by_app i j (calls1 calls2 : list (Z * Z * T)) :
  absorbed_by i j (calls1 ++ calls2)
  = absorbed_by i j calls1 ++ absorbed_by i j calls2.
Proof.
  unfold absorbed_by. by rewrite List.filter_app, fmap_app.
Qed.

Lemma entry_apply_calls (calls : list (Z * Z * T)) (acc : Binning2D.Matrix T)
    i j :
  Binning2D.entry (fold_left apply_call calls acc) i j
  = (fun held => held ++ absorbed_by i j calls) <$> Binning2D.entry acc i j.
Proof.
  revert acc. induction calls as [|[[ix iy] v] calls IH]; intros acc; simpl.
  - destruct (Binning2D.entry acc i j); simpl; by rewrite ?app_nil_r.
  - rewrite IH. unfold apply_call. simpl. rewrite entry_accumulate.
    change ((ix, iy, v) :: calls) with ([(ix, iy, v)] ++ calls).
    rewrite absorbed_by_app.
    destruct (Binning2D.entry acc i j); simpl; [|done].
    by rewrite app_assoc.
Qed.

Lemma loop_body_calls simple (self : Binning2D.t T double)
    (acc : Binning2D.Matrix T) sample :
  Binning2D.loop_body simple self acc sample
  = fold_left apply_call (calls simple self sample) acc.
Proof.
  unfold Binning2D.loop_body, calls, area_strategy.
  destruct sample as [[x y] value]. destruct simple.
  - unfold Binning2D.nearest_step, nearest_calls.
    destruct (Binning2D.isnan value); simpl; [done|].
    by destruct (_ && _).
  - assert (forall strategy,
      Binning2D.linear_step strategy (Binning2D.x_ self) (Binning2D.y_ self)
        acc (x, y, value)
      = fold_left apply_call
          (linear_calls strategy (Binning2D.x_ self) (Binning2D.y_ self)
             (x, y, value)) acc) as Hlinear.
    { intros strategy. unfold Binning2D.linear_step, linear_calls.
      destruct (Binning2D.isnan value); [done|].
      destruct (Axis.find_indexes (Binning2D.x_ self) _) as [[ix0 ix1]|];
        [|done].
      destruct (Axis.find_indexes (Binning2D.y_ self) _) as [[iy0 iy1]|];
        [|done].
      by destruct (Binning2D.corner_weights _ _ _ _ _ _ _ _ _)
        as [[[w0 w1] w2] w3]. }
    destruct (Binning2D.wgs_ self); apply Hlinear.
Qed.

Lemma fold_loop_body_calls simple (self : Binning2D.t T double)
    (batch : list (T * T * T)) (acc : Binning2D.Matrix T) :
  fold_left (Binning2D.loop_body simple self) batch acc
  = fold_left apply_call (flat_map (calls simple self) batch) acc.
Proof.
  revert acc. induction batch as [|sample batch IH]; intros acc; simpl.
  - done.
  - by rewrite fold_left_app, IH, loop_body_calls.
Qed.

Lemma cell_push_batch simple (batch : list (T * T * T))
    (self : Binning2D.t T double) ix iy :
  Binning2D.cell (snd (Binning2D.push_batch simple batch self)) ix iy
  = (fun held =>
       held ++ absorbed_by ix iy (flat_map (calls simple self) batch))
    <$> Binning2D.cell self ix iy.
Proof.
  rewrite push_batch_accepts. simpl.
  unfold Binning2D.cell. simpl.
  rewrite fold_loop_body_calls.
  apply (entry_apply_calls _ (Binning2D.acc_ self)).
Qed.

Lemma absorbed_by_nearest (x_axis y_axis : Axis.t double) ix iy
    (batch : list (T * T * T)) :
  absorbed_by ix iy (flat_map (nearest_calls x_axis y_axis) batch)
  = (List.filter (lands_on x_axis y_axis ix iy) batch).*2.
Proof.
  induction batch as [|[[x y] value] batch IH]; [done|].
  simpl. rewrite absorbed_by_app, IH. clear IH.
  unfold absorbed_by, addresses.
  destruct (Binning2D.isnan value); simpl; [done|].
  set (jx := Axis.find_index x_axis (Binning2D.to_double x) true).
  set (jy := Axis.find_index y_axis (Binning2D.to_double y) true).
  destruct (Z.eqb_spec jx (-1)) as [Hx|Hx]; simpl.
  { destruct (Z.eqb_spec jx (Z.of_nat ix)); [lia|done]. }
  destruct (Z.eqb_spec jy (-1)) as [Hy|Hy]; simpl.
  { destruct (Z.eqb_spec jy (Z.of_nat iy)); [lia|].
    by rewrite andb_false_r. }
  by destruct (_ && _).
Qed.

(** X5.  What a cell holds after a push in nearest mode: the samples it
    held, followed by the values of the samples of the batch, in the order
    of the batch, whose value is not NaN and which [find_index], called
    with clamping, sends to this cell on both axes.  A cell no sample is
    sent to is left as it was. *)
Theorem nearest_cell_samples (batch : list (T * T * T))
    (self : Binning2D.t T double) ix iy :
  let pushed := Binning2D.push_batch true batch self in
  fst pushed = inr tt /\
  Binning2D.cell (snd pushed) ix iy
  = (fun held =>
       held
       ++ (List.filter
             (lands_on (Binning2D.x_ self) (Binning2D.y_ self) ix iy)
             batch).*2)
    <$> Binning2D.cell self ix iy.
Proof.
  split; [by rewrite push_batch_accepts|].
  rewrite cell_push_batch. unfold calls.
  by rewrite absorbed_by_nearest.
Qed.

(** X6.  What a cell holds after a push in linear mode: the samples it
    held, followed, for each sample of the batch in order whose value is
    not NaN and which [find_indexes] resolves on both axes, by the
    products value * weight of those of its four corners
    [(ix0, iy0)], [(ix0, iy1)], [(ix1, iy0)], [(ix1, iy1)] that are this
    cell.  A cell that is a corner of no sample is left as it was. *)
Theorem linear_cell_contributions (batch : list (T * T * T))
    (self : Binning2D.t T double) ix iy :
  let pushed := Binning2D.push_batch false batch self in
  fst pushed = inr tt /\
  Binning2D.cell (snd pushed) ix iy
  = (fun held =>
       held
       ++ flat_map
            (fun sample =>
               absorbed_by ix iy
                 (linear_calls (area_strategy self) (Binning2D.x_ self)
                    (Binning2D.y_ self) sample))
            batch)
    <$> Binning2D.cell self ix iy.
Proof.
  split; [by rewrite push_batch_accepts|].
  rewrite cell_push_batch. unfold calls.
  assert (forall (f : T * T * T -> list (Z * Z * T)),
    absorbed_by ix iy (flat_map f batch)
    = flat_map (fun sample => absorbed_by ix iy (f sample)) batch)
    as Hflat.
  { intros f. induction batch as [|sample batch IH]; [done|].
    simpl. by rewrite absorbed_by_app, IH. }
  by rewrite Hflat.
Qed.

Lemma absorbed_by_length_permutation ix iy (calls1 calls2 : list (Z * Z * T)) :
  calls1 ≡ₚ calls2 ->
  length (absorbed_by ix iy calls1) = length (absorbed_by ix iy calls2).
Proof.
  unfold absorbed_by. rewrite !length_fmap.
  induction 1 as [|call calls1 calls2 _ IH|call1 call2 calls|? ? ? _ IH1 _ IH2];
    simpl.
  - done.
  - destruct (addresses ix iy call); simpl; by rewrite IH.
  - by destruct (addresses ix iy call1), (addresses ix iy call2).
  - by rewrite IH1.
Qed.

Lemma row_lengths_accumulate (acc : Binning2D.Matrix T) ix iy v :
  length <$> Binning2D.accumulate acc ix iy v = length <$> acc.
Proof.
  unfold Binning2D.accumulate.
  destruct (_ && _); [|done].
  unfold Binning2D.Matrix, Binning2D.Accumulators in *.
  rewrite (list_fmap_alter length _ (fun n => n)).
  - by apply list_alter_id.
  - apply Forall_forall. intros row _. by rewrite length_alter.
Qed.

Lemma row_lengths_apply_calls (calls : list (Z * Z * T))
    (acc : Binning2D.Matrix T) :
  length <$> fold_left apply_call calls acc = length <$> acc.
Proof.
  revert acc. induction calls as [|call calls IH]; intros acc; [done|].
  simpl. rewrite IH. apply row_lengths_accumulate.
Qed.

Lemma row_lengths_map {A B} (f : A -> B) (m : list (list A)) :
  length <$> map (fun row => map f row) m = length <$> m.
Proof.
  induction m as [|row m IH]; [done|].
  simpl. rewrite length_map. f_equal. exact IH.
Qed.

Lemma matrix_ext {A} (a b : list (list A)) :
  length <$> a = length <$> b ->
  (forall i j, Binning2D.entry a i j = Binning2D.entry b i j) ->
  a = b.
Proof.
  revert b. induction a as [|ra a IH]; intros [|rb b] Hlen Hentry;
    simplify_eq/=; [done|].
  f_equal.
  - apply list_eq. intros j. exact (Hentry 0 j).
  - apply IH; [done|]. intros i j. exact (Hentry (S i) j).
Qed.

(** X7.  The counts do not depend on the order of the samples: two batches
    that hold the same samples in a different order, pushed in the same
    mode on the same engine, give the same [count()]. *)
Theorem count_order_independent simple (batch1 batch2 : list (T * T * T))
    (self : Binning2D.t T double) :
  batch1 ≡ₚ batch2 ->
  Binning2D.count (snd (Binning2D.push_batch simple batch1 self))
  = Binning2D.count (snd (Binning2D.push_batch simple batch2 self)).
Proof.
  intros Hperm. unfold Binning2D.count, Binning2D.calculate_statistics.
  rewrite !push_batch_accepts. simpl. rewrite !fold_loop_body_calls.
  apply matrix_ext.
  - by rewrite !row_lengths_map, !row_lengths_apply_calls.
  - intros i j. rewrite !entry_map, !entry_apply_calls.
    destruct (Binning2D.entry (Binning2D.acc_ self) i j) as [held|];
      simpl; [|done].
    unfold Binning2D.accumulators_count.
    rewrite !length_app.
    rewrite (absorbed_by_length_permutation i j
               (flat_map (calls simple self) batch1)
               (flat_map (calls simple self) batch2)); [done|].
    by apply Permutation_flat_map.
Qed.

End CellHistory.

Section Independence.
#[local] Set Default Proof Using "Type".
Context {T double : Type} `{!Binning2D.Scalar T double}.

(** X8.  Nearest mode uses neither the ellipsoid nor the geometry: pushing
    the same arrays in nearest mode on two engines that differ only in
    their ellipsoid, with any two implementations of the angle
    normalisation and of the area weights, gives the same outcome and the
    same accumulators. *)
Theorem nearest_ignores_geometry
    (geometry1 geometry2 : Binning2D.Geometry double)
    (x y z : array_t T) (x_axis y_axis : Axis.t double)
    (acc : Binning2D.Matrix T) (wgs1 wgs2 : option (System double)) :
  let pushed1 :=
    Binning2D.push (Geometry0 := geometry1) x y z true
      (Binning2D.mk x_axis y_axis acc wgs1) in
  let pushed2 :=
    Binning2D.push (Geometry0 := geometry2) x y z true
      (Binning2D.mk x_axis y_axis acc wgs2) in
  fst pushed1 = fst pushed2 /\
  Binning2D.acc_ (snd pushed1) = Binning2D.acc_ (snd pushed2).
Proof.
  unfold Binning2D.push, Binning2D.bind, Binning2D.lift, Binning2D.get,
    Binning2D.modify.
  destruct (check_array_ndim _) as [e|[]]; [done|].
  by destruct (check_ndarray_shape _ _ _) as [e|[]].
Qed.

(** X9.  The angle normalisation is called for an angular x-axis only: in
    linear mode over an x-axis that is not angular, two implementations of
    the geometry that agree on the area weights give the same
    accumulators. *)
Theorem planar_axis_ignores_normalisation
    (geometry1 geometry2 : Binning2D.Geometry double)
    (batch : list (T * T * T)) (self : Binning2D.t T double) :
  Axis.is_angle (Binning2D.x_ self) = false ->
  @Binning2D.binning _ geometry1 = @Binning2D.binning _ geometry2 ->
  Binning2D.push_batch (Geometry0 := geometry1) false batch self
  = Binning2D.push_batch (Geometry0 := geometry2) false batch self.
Proof.
  intros Hangle Hbinning.
  rewrite !push_batch_accepts. f_equal. f_equal. f_equal.
  unfold Binning2D.loop_body.
  assert (forall strategy,
    Binning2D.linear_step (Geometry0 := geometry1) strategy
      (Binning2D.x_ self) (Binning2D.y_ self)
    = Binning2D.linear_step (Geometry0 := geometry2) strategy
        (Binning2D.x_ self) (Binning2D.y_ self)) as Hstep.
  { intros strategy. unfold Binning2D.linear_step, Binning2D.corner_weights.
    by rewrite Hangle, Hbinning. }
  destruct (Binning2D.wgs_ self); apply Hstep.
Qed.

End Independence.

(* ===================================================================== *)
(** * The state of a polygon                                            *)
(* ===================================================================== *)

Section PolygonState.
#[local] Set Default Proof Using "Type".

Lemma insert_at_length {A} (done : list A) (a b : A) (rest : list A) :
  <[length done := b]> (done ++ a :: rest) = done ++ b :: rest.
Proof.
  rewrite insert_app_r_alt by done. by rewrite Nat.sub_diag.
Qed.

Lemma append_points_accepts {object Point : Type}
    {Python0 : Polygon.Python object Point}
    (items : list object) (points ring : list Point) :
  Forall2 Polygon.converts_to_point items points ->
  Polygon.append_points ring items = inr (ring ++ points).
Proof.
  intros Hitems. revert ring.
  induction Hitems as [|item point items points Hitem _ IH]; intros ring.
  - by rewrite app_nil_r.
  - simpl. rewrite Hitem, IH. by rewrite <- app_assoc.
Qed.

Lemma append_points_accepted {object Point : Type}
    {Python0 : Polygon.Python object Point}
    (items : list object) (ring ring' : list Point) :
  Polygon.append_points ring items = inr ring' ->
  exists points,
    ring' = ring ++ points /\ Forall2 Polygon.converts_to_point items points.
Proof.
  revert ring. induction items as [|item items IH]; intros ring; simpl.
  - intros [= <-]. exists []. by rewrite app_nil_r.
  - destruct (Polygon.cast_Point item) as [e|point] eqn:Hitem; [done|].
    intros (points & -> & Hpoints)%IH.
    exists (point :: points). rewrite <- app_assoc. split; [done|].
    by constructor.
Qed.

Lemma append_points_refuses {object Point : Type}
    {Python0 : Polygon.Python object Point}
    (good : list object) bad rest
    (points ring : list Point) e :
  Forall2 Polygon.converts_to_point good points ->
  Polygon.cast_Point bad = inl e ->
  Polygon.append_points ring (good ++ bad :: rest) = inl e.
Proof.
  intros Hgood Hbad. revert ring.
  induction Hgood as [|item point good points Hitem _ IH]; intros ring; simpl.
  - by rewrite Hbad.
  - by rewrite Hitem, IH.
Qed.

Lemma append_inners_accepts {object Point : Type}
    {Python0 : Polygon.Python object Point}
    (inners : list object)
    (rings done : list (list Point)) :
  Forall2 Polygon.converts_to_ring inners rings ->
  Polygon.append_inners (done ++ replicate (length inners) [])
    (length done) inners
  = inr (done ++ rings).
Proof.
  intros Hinners. revert done.
  induction Hinners as [|inner ring inners rings Hinner _ IH]; intros done.
  - done.
  - destruct Hinner as (items & Hlist & Hitems). simpl.
    rewrite Hlist.
    rewrite (list_lookup_middle done _ [] (length done)) by done. simpl.
    rewrite (append_points_accepts items ring []) by done. simpl.
    rewrite insert_at_length.
    specialize (IH (done ++ [ring])).
    rewrite (length_app done), <- !app_assoc, Nat.add_1_r in IH. exact IH.
Qed.

Lemma append_inners_accepted {object Point : Type}
    {Python0 : Polygon.Python object Point}
    (inners : list object)
    (rings done : list (list Point)) :
  Polygon.append_inners (done ++ replicate (length inners) [])
    (length done) inners
  = inr rings ->
  exists new,
    rings = done ++ new /\ Forall2 Polygon.converts_to_ring inners new.
Proof.
  revert done. induction inners as [|inner inners IH]; intros done; simpl.
  - intros [= <-]. by exists [].
  - destruct (Polygon.cast_list inner) as [e|items] eqn:Hlist; [done|].
    rewrite (list_lookup_middle done _ [] (length done)) by done. simpl.
    destruct (Polygon.append_points [] items) as [e|ring] eqn:Hring; [done|].
    apply append_points_accepted in Hring as (points & -> & Hpoints).
    rewrite insert_at_length. simpl.
    specialize (IH (done ++ [points])).
    rewrite (length_app done), <- !app_assoc, Nat.add_1_r in IH.
    intros (new & -> & Hnew)%IH.
    exists (points :: new). rewrite <- app_assoc. split; [done|].
    constructor; [|done]. by exists items.
Qed.

Lemma append_inners_refuses {object Point : Type}
    {Python0 : Polygon.Python object Point}
    (good : list object) bad rest
    (rings done : list (list Point)) e :
  Forall2 Polygon.converts_to_ring good rings ->
  Polygon.ring_raises bad e ->
  Polygon.append_inners
    (done ++ replicate (length (good ++ bad :: rest)) [])
    (length done) (good ++ bad :: rest)
  = inl e.
Proof.
  intros Hgood Hbad. revert done.
  induction Hgood as [|inner ring good rings Hinner _ IH]; intros done.
  - simpl. destruct Hbad as [->|(g & b & r & points & -> & Hg & Hb)]; [done|].
    rewrite (list_lookup_middle done _ [] (length done)) by done. simpl.
    by rewrite (append_points_refuses g b r points [] e).
  - destruct Hinner as (items & Hlist & Hitems). simpl.
    rewrite Hlist.
    rewrite (list_lookup_middle done _ [] (length done)) by done. simpl.
    rewrite (append_points_accepts items ring []) by done. simpl.
    rewrite insert_at_length.
    specialize (IH (done ++ [ring])).
    rewrite (length_app done), <- !app_assoc, Nat.add_1_r in IH. exact IH.
Qed.

Lemma polygon_make_accepts {object Point : Type}
    {Python0 : Polygon.Python object Point}
    (outer inners : list object) (ring : list Point)
    (rings : list (list Point)) :
  Forall2 Polygon.converts_to_point outer ring ->
  Forall2 Polygon.converts_to_ring inners rings ->
  Polygon.make outer inners = inr (Polygon.mk ring rings).
Proof.
  intros Houter Hinners. unfold Polygon.make.
  rewrite (append_points_accepts outer ring []) by done. simpl.
  destruct inners as [|inner inners].
  - by inversion Hinners.
  - pose proof (append_inners_accepts (inner :: inners) rings [] Hinners)
      as Hrings.
    simpl in Hrings |- *. by rewrite Hrings.
Qed.

(** X14.  The constructor succeeds exactly when every item of [outer]
    converts to a point and every item of [inners] converts to a list of
    points; the polygon then holds the converted points in the order
    given, the k-th interior ring being the k-th item of [inners]. *)
Theorem polygon_make_succeeds_iff {object Point : Type}
    {Python0 : Polygon.Python object Point}
    (outer inners : list object)
    (polygon : @Polygon.t Point) :
  Polygon.make outer inners = inr polygon <->
  Forall2 Polygon.converts_to_point outer (Polygon.outer polygon) /\
  Forall2 Polygon.converts_to_ring inners (Polygon.inners polygon).
Proof.
  unfold Polygon.make. split.
  - destruct (Polygon.append_points [] outer) as [e|ring] eqn:Houter;
      [by destruct e|].
    apply append_points_accepted in Houter as (points & -> & Hpoints).
    simpl. destruct inners as [|inner inners].
    + intros [= <-]. split; [done|constructor].
    + destruct (Polygon.append_inners _ 0 (inner :: inners))
        as [e|rings] eqn:Hinners; [by destruct e|].
      apply (append_inners_accepted (inner :: inners) rings []) in Hinners
        as (new & -> & Hnew).
      simpl. intros [= <-]. by split.
  - destruct polygon as [ring rings]. simpl. intros [Houter Hinners].
    by apply polygon_make_accepts.
Qed.

(** X15.  When the first item of [outer] that does not convert to a point
    raises [e], the constructor raises, whatever [inners] holds:
    [invalid_argument] with the message about [outer] if [e] is
    [cast_error], and [e] itself otherwise. *)
Theorem polygon_make_refuses_outer {object Point : Type}
    {Python0 : Polygon.Python object Point}
    (good : list object) bad rest
    (points : list Point) (inners : list object) e :
  Forall2 Polygon.converts_to_point good points ->
  Polygon.cast_Point bad = inl e ->
  Polygon.make (good ++ bad :: rest) inners
  = inl (Polygon.seen_as e
           "outer must be a list of pyinterp.geodetic.Point").
Proof.
  intros Hgood Hbad. unfold Polygon.make.
  rewrite (append_points_refuses good bad rest points [] e) by done.
  by destruct e.
Qed.

(** X16.  When [outer] converts and the first item of [inners] that does
    not convert to a ring raises [e] (at its conversion to a list, or at
    the conversion of one of its items to a point), the constructor
    raises: [invalid_argument] with the message about [inners] if [e] is
    [cast_error], and [e] itself otherwise. *)
Theorem polygon_make_refuses_inners {object Point : Type}
    {Python0 : Polygon.Python object Point}
    (outer good : list object) bad rest
    (ring : list Point) (rings : list (list Point)) e :
  Forall2 Polygon.converts_to_point outer ring ->
  Forall2 Polygon.converts_to_ring good rings ->
  Polygon.ring_raises bad e ->
  Polygon.make outer (good ++ bad :: rest)
  = inl (Polygon.seen_as e
           "inners must be a list of list of pyinterp.geodetic.Point").
Proof.
  intros Houter Hgood Hbad. unfold Polygon.make.
  rewrite (append_points_accepts outer ring []) by done. simpl.
  destruct (good ++ bad :: rest) as [|inner inners] eqn:Hinners.
  { by destruct good. }
  rewrite <- Hinners.
  pose proof (append_inners_refuses good bad rest rings [] e Hgood Hbad)
    as Hrings.
  simpl in Hrings |- *. rewrite Hrings. by destruct e.
Qed.

Lemma fold_left_snoc {A B} (f : A -> B) (items : list A) (done : list B) :
  fold_left (fun l item => l ++ [f item]) items done = done ++ map f items.
Proof.
  revert done. induction items as [|item items IH]; intros done; simpl.
  - by rewrite app_nil_r.
  - by rewrite IH, <- app_assoc.
Qed.

(** X17.  [setstate] undoes [getstate]: for conversions under which a point
    and a list, once handed to Python, convert back to themselves, the
    polygon rebuilt from the state of a polygon is that polygon. *)
Theorem polygon_setstate_getstate {object Point : Type}
    {Python0 : Polygon.Python object Point}
    (polygon : @Polygon.t Point) :
  (forall point, Polygon.cast_Point (Polygon.of_Point point) = inr point) ->
  (forall items, Polygon.cast_list (Polygon.of_list items) = inr items) ->
  Polygon.setstate (Polygon.getstate polygon) = inr polygon.
Proof.
  intros Hpoint Hlist. unfold Polygon.setstate, Polygon.getstate.
  rewrite !Hlist. destruct polygon as [ring rings]. simpl.
  rewrite !fold_left_snoc. simpl. apply polygon_make_accepts.
  - induction ring; constructor; [apply Hpoint|done].
  - clear ring. induction rings as [|ring rings IH]; constructor; [|done].
    exists (map Polygon.of_Point ring). rewrite fold_left_snoc. simpl.
    split; [apply Hlist|].
    induction ring; constructor; [apply Hpoint|done].
Qed.

(** X18.  [setstate] refuses a state that does not hold two items with
    [runtime_error].  An exception raised while one of the two items is
    converted to a list reaches the caller as it is: a [cast_error] there
    is not turned into [invalid_argument]. *)
Theorem polygon_setstate_refuses {object Point : Type}
    {Python0 : Polygon.Python object Point}
    (state : list object) :
  (length state <> 2 ->
   Polygon.setstate state = inl (Polygon.runtime_error "invalid state")) /\
  (forall state0 state1 e,
     state = [state0; state1] ->
     Polygon.cast_list state0 = inl e ->
     Polygon.setstate state = inl e) /\
  (forall state0 state1 outer e,
     state = [state0; state1] ->
     Polygon.cast_list state0 = inr outer ->
     Polygon.cast_list state1 = inl e ->
     Polygon.setstate state = inl e).
Proof.
  split; [|split].
  - by destruct state as [|? [|? [|? ?]]].
  - intros state0 state1 e -> Hstate0. simpl. by rewrite Hstate0.
  - intros state0 state1 outer e -> Hstate0 Hstate1. simpl.
    by rewrite Hstate0, Hstate1.
Qed.

End PolygonState.

(* ===================================================================== *)
(** * Geodetic coordinates and the equatorial plane                     *)
(* ===================================================================== *)

Section Ellipsoid.
#[local] Set Default Proof Using "Type".
Local Open Scope R_scope.
Variable sqr : R -> R.
Variable sincosd : R -> R * R.
Variable atan2d : R -> R -> R.
Variable degrees : R -> R.

Lemma lla_to_ecef_reflect (self : Coordinates.t) (lon lat alt : R) :
  (forall v, sqr (- v) = sqr v) ->
  sincosd (- lat) = (- (sincosd lat).1, (sincosd lat).2) ->
  let '(x, y, z) := Coordinates.lla_to_ecef sqr sincosd self (lon, lat, alt) in
  Coordinates.lla_to_ecef sqr sincosd self (lon, - lat, alt) = (x, y, - z).
Proof.
  intros Hsqr Hodd. unfold Coordinates.lla_to_ecef.
  rewrite Hodd.
  destruct (sincosd lon) as [sinx cosx], (sincosd lat) as [siny cosy].
  simpl. rewrite Hsqr. f_equal. ring.
Qed.

Lemma ecef_to_lla_reflect (self : Coordinates.t) (x y z : R) :
  (forall v, sqr (- v) = sqr v) ->
  (forall v, degrees (- v) = - degrees v) ->
  z <> 0 ->
  let '(lon, lat, alt) :=
    Coordinates.ecef_to_lla sqr atan2d degrees self (x, y, z) in
  Coordinates.ecef_to_lla sqr atan2d degrees self (x, y, - z)
  = (lon, - lat, alt).
Proof.
  intros Hsqr Hdeg Hz. unfold Coordinates.ecef_to_lla.
  rewrite Hsqr, Rabs_Ropp.
  destruct (Rgt_dec _ _);
    destruct (Rlt_dec z 0), (Rlt_dec (- z) 0); try lra;
    rewrite ?Hdeg, ?Ropp_involutive; reflexivity.
Qed.

(** X20.  Mirror symmetry through the equatorial plane, for a square that
    is even, a sine that is odd with an even cosine, and a conversion to
    degrees that is odd.  Negating the latitude negates the [z] of
    [lla_to_ecef] and keeps [x] and [y]; negating a [z] other than 0
    negates the latitude of [ecef_to_lla] and keeps the longitude and the
    altitude; hence [transform] of the mirrored point is the mirror of
    [transform] of the point, when the point is not sent to [z = 0]. *)
Theorem equatorial_mirror (self target : Coordinates.t)
    (lon lat alt x y z : R) :
  (forall v, sqr (- v) = sqr v) ->
  (forall angle,
     sincosd (- angle) = (- (sincosd angle).1, (sincosd angle).2)) ->
  (forall v, degrees (- v) = - degrees v) ->
  z <> 0 ->
  (Coordinates.lla_to_ecef sqr sincosd self (lon, lat, alt)).2 <> 0 ->
  let mirror_ecef := fun p : R * R * R => (p.1.1, p.1.2, - p.2) in
  let mirror_lla := fun p : R * R * R => (p.1.1, - p.1.2, p.2) in
  Coordinates.lla_to_ecef sqr sincosd self (lon, - lat, alt)
  = mirror_ecef (Coordinates.lla_to_ecef sqr sincosd self (lon, lat, alt)) /\
  Coordinates.ecef_to_lla sqr atan2d degrees target (x, y, - z)
  = mirror_lla (Coordinates.ecef_to_lla sqr atan2d degrees target (x, y, z)) /\
  Coordinates.transform sqr sincosd atan2d degrees self target
    (lon, - lat, alt)
  = mirror_lla
      (Coordinates.transform sqr sincosd atan2d degrees self target
         (lon, lat, alt)).
Proof.
  intros Hsqr Hsin Hdeg Hz Hecef mirror_ecef mirror_lla.
  pose proof (lla_to_ecef_reflect self lon lat alt Hsqr (Hsin lat)) as Hlla.
  split; [|split].
  - destruct (Coordinates.lla_to_ecef sqr sincosd self (lon, lat, alt))
      as [[x' y'] z'].
    exact Hlla.
  - pose proof (ecef_to_lla_reflect target x y z Hsqr Hdeg Hz) as H.
    by destruct (Coordinates.ecef_to_lla sqr atan2d degrees target (x, y, z))
      as [[lon' lat'] alt'].
  - unfold Coordinates.transform.
    destruct (Coordinates.lla_to_ecef sqr sincosd self (lon, lat, alt))
      as [[x' y'] z'].
    rewrite Hlla. simpl in Hecef.
    pose proof (ecef_to_lla_reflect target x' y' z' Hsqr Hdeg Hecef) as H.
    by destruct (Coordinates.ecef_to_lla sqr atan2d degrees target
                   (x', y', z')) as [[lon' lat'] alt'].
Qed.

End Ellipsoid.

(* ===================================================================== *)
(** * Instances of the statements at concrete inputs                      *)
(* ===================================================================== *)

Lemma push_shape_mismatch_witness :
  let x := mk_array [1; 1] [0.5]%float in
  let y := array1d [0.5]%float in
  let z := array1d [10]%float in
  let self := Float64.grid Float64.no_wrap in
  let pushed :=
    Float64.push Float64.no_wrap Float64.no_ellipsoid x y z false self in
  (exists e, fst pushed = inl e) /\
  snd pushed = self /\
  forall func,
    Binning2D.calculate_statistics func (snd pushed)
    = Binning2D.calculate_statistics func self.
Proof.
  intros x y z self pushed.
  apply (@push_shape_mismatch float float Float64.scalar
           (Float64.geometry Float64.no_wrap Float64.no_ellipsoid)
           x y z false self).
  intros (Hx & _). vm_compute in Hx. discriminate Hx.
Defined.

(** C1, as stated, fails.  On the grid over [0,1,2] by [0,1,2], the batch
    of the single sample (5, 0.5, 7) is pushed in nearest mode.  The
    abscissa 5 lies outside the x-axis; [find_index], called with
    clamping, snaps it to the last index, and the cell (2,1) counts the
    sample.  The sum of the counts is 1, the number of samples that are
    not NaN and within both domains is 0. *)
Lemma nearest_counts_clamped_sample :
  let x := array1d [5]%float in
  let y := array1d [0.5]%float in
  let z := array1d [7]%float in
  let pushed :=
    Float64.push Float64.no_wrap Float64.no_ellipsoid x y z true
      (Float64.grid Float64.no_wrap) in
  fst pushed = inr tt /\
  Float64.count (snd pushed)
  = [[0; 0; 0]; [0; 0; 0]; [0; 1; 0]]%float /\
  Binning2D.total_count (Binning2D.acc_ (snd pushed)) = 1 /\
  length
    (List.filter
       (Float64.in_both_domains Float64.no_wrap [0; 1; 2]%float
          [0; 1; 2]%float)
       (Binning2D.samples x y z)) = 0.
Proof.
  intros x y z pushed.
  split; [vm_compute; reflexivity|].
  split; [vm_compute; reflexivity|].
  split; vm_compute; reflexivity.
Qed.

Lemma nearest_count_conservation_witness :
  let x := array1d [0.25; 5; 1]%float in
  let y := array1d [0.25; 0.5; 1]%float in
  let z := array1d [7; 7; nan]%float in
  let self := Float64.grid Float64.no_wrap in
  let pushed :=
    Float64.push Float64.no_wrap Float64.no_ellipsoid x y z true self in
  fst pushed = inr tt /\
  Binning2D.total_count (Binning2D.acc_ (snd pushed))
  = Binning2D.total_count (Binning2D.acc_ self)
    + length
        (List.filter
           (Binning2D.resolved_nearest (Scalar0 := Float64.scalar)
              (Binning2D.x_ self) (Binning2D.y_ self))
           (Binning2D.samples x y z)).
Proof.
  intros x y z self pushed.
  apply (@nearest_count_conservation float float Float64.scalar
           (Float64.geometry Float64.no_wrap Float64.no_ellipsoid)
           x y z self).
  - repeat split.
  - apply new_matrix_shape.
  - apply from_values_contract.
  - apply from_values_contract.
Defined.


Lemma nan_samples_skipped_witness :
  let self := Float64.grid Float64.no_wrap in
  Binning2D.push_batch (Scalar0 := Float64.scalar)
    (Geometry0 := Float64.geometry Float64.no_wrap Float64.no_ellipsoid)
    false [(0.5, 0.5, nan)%float; (1, 1, nan)%float] self
  = (inr tt, self).
Proof.
  intros self.
  apply (@nan_samples_skipped float float Float64.scalar
           (Float64.geometry Float64.no_wrap Float64.no_ellipsoid)).
  repeat constructor.
Defined.

Lemma linear_count_conservation_witness :
  let x := array1d [0.5; 5; 1]%float in
  let y := array1d [0.5; 0.5; 1]%float in
  let z := array1d [10; 7; nan]%float in
  let self := Float64.grid Float64.no_wrap in
  let pushed :=
    Float64.push Float64.no_wrap Float64.no_ellipsoid x y z false self in
  fst pushed = inr tt /\
  Binning2D.total_count (Binning2D.acc_ (snd pushed))
  = Binning2D.total_count (Binning2D.acc_ self)
    + 4 * length
            (List.filter
               (Binning2D.resolved_linear (Scalar0 := Float64.scalar)
                  (Binning2D.x_ self) (Binning2D.y_ self))
               (Binning2D.samples x y z)).
Proof.
  intros x y z self pushed.
  apply (@linear_count_conservation float float Float64.scalar
           (Float64.geometry Float64.no_wrap Float64.no_ellipsoid)
           x y z self).
  - repeat split.
  - apply new_matrix_shape.
  - apply from_values_contract.
  - apply from_values_contract.
Defined.

Lemma count_order_independent_witness :
  let batch1 := [(0.25, 0.25, 7); (1, 1, 3); (5, 0.5, 2)]%float in
  let batch2 := [(5, 0.5, 2); (0.25, 0.25, 7); (1, 1, 3)]%float in
  let self := Float64.grid Float64.no_wrap in
  let push :=
    Binning2D.push_batch (Scalar0 := Float64.scalar)
      (Geometry0 := Float64.geometry Float64.no_wrap Float64.no_ellipsoid) in
  Float64.count (snd (push false batch1 self))
  = Float64.count (snd (push false batch2 self)).
Proof.
  intros batch1 batch2 self push.
  apply (@count_order_independent float float Float64.scalar
           (Float64.geometry Float64.no_wrap Float64.no_ellipsoid)
           false batch1 batch2 self).
  unfold batch1, batch2.
  etrans; [apply perm_skip, perm_swap|]. apply perm_swap.
Defined.

Lemma planar_axis_ignores_normalisation_witness :
  let batch := [(0.5, 0.5, 10); (1.5, 0.25, 4)]%float in
  let self := Float64.grid Float64.no_wrap in
  Binning2D.push_batch (Scalar0 := Float64.scalar)
    (Geometry0 := Float64.geometry Float64.no_wrap Float64.no_ellipsoid)
    false batch self
  = Binning2D.push_batch (Scalar0 := Float64.scalar)
      (Geometry0 :=
         Float64.geometry (fun x min circle => PrimFloat.add x circle)
           Float64.no_ellipsoid)
      false batch self.
Proof.
  intros batch self.
  apply (@planar_axis_ignores_normalisation float float Float64.scalar
           (Float64.geometry Float64.no_wrap Float64.no_ellipsoid)
           (Float64.geometry (fun x min circle => PrimFloat.add x circle)
              Float64.no_ellipsoid)
           batch self); reflexivity.
Defined.

Lemma polygon_make_refuses_outer_witness :
  Polygon.make (Python0 := Python.conversions)
    [Python.point_value (0, 0)%float; Python.none_value]
    [Python.none_value]
  = inl (Polygon.invalid_argument
           "outer must be a list of pyinterp.geodetic.Point").
Proof.
  apply (@polygon_make_refuses_outer _ _ Python.conversions
           [Python.point_value (0, 0)%float] Python.none_value []
           [(0, 0)%float] [Python.none_value] Polygon.cast_error).
  - by repeat constructor.
  - reflexivity.
Defined.

Lemma polygon_make_refuses_inners_witness :
  Polygon.make (Python0 := Python.conversions)
    [Python.point_value (0, 0)%float]
    [Python.list_value [Python.point_value (1, 1)%float];
     Python.list_value [Python.point_value (1, 2)%float; Python.none_value]]
  = inl (Polygon.invalid_argument
           "inners must be a list of list of pyinterp.geodetic.Point").
Proof.
  apply (@polygon_make_refuses_inners _ _ Python.conversions
           [Python.point_value (0, 0)%float]
           [Python.list_value [Python.point_value (1, 1)%float]]
           (Python.list_value [Python.point_value (1, 2)%float;
                               Python.none_value]) []
           [(0, 0)%float] [[(1, 1)%float]] Polygon.cast_error).
  - by repeat constructor.
  - constructor; [|constructor].
    exists [Python.point_value (1, 1)%float]. split; [done|].
    by repeat constructor.
  - right. exists [Python.point_value (1, 2)%float], Python.none_value, [],
      [(1, 2)%float].
    split; [done|]. split; [by repeat constructor|done].
Defined.

Lemma polygon_setstate_getstate_witness :
  Polygon.setstate (Python0 := Python.conversions)
    (Polygon.getstate (Python0 := Python.conversions) Python.triangle)
  = inr Python.triangle.
Proof.
  apply (@polygon_setstate_getstate _ _ Python.conversions Python.triangle).
  - intros point. reflexivity.
  - intros items. reflexivity.
Defined.

Lemma WGS84_eccentricity : (Coordinates.e2_ WGS84.coordinates < 1)%R.
Proof.
  unfold WGS84.coordinates, Coordinates.make, WGS84.first_eccentricity_squared.
  simpl. assert (0 < 1 / 298.257223563 < 1)%R by lra. nra.
Qed.

Lemma polar_radius_positive (a e2 : R) :
  (0 < a -> e2 < 1 -> a / sqrt (1 - e2) * (1 - e2) <> 0)%R.
Proof.
  intros Ha He2.
  assert (0 < sqrt (1 - e2))%R as Hsqrt by (apply sqrt_lt_R0; lra).
  assert (0 < a / sqrt (1 - e2))%R as Hn by (by apply Rdiv_lt_0_compat).
  assert (0 < a / sqrt (1 - e2) * (1 - e2))%R
    by (apply Rmult_lt_0_compat; [done|lra]).
  lra.
Qed.

Lemma WGS84_pole_height :
  ((Coordinates.lla_to_ecef WGS84.sqr WGS84.sincosd WGS84.coordinates
      (0, 90, 0)).2 <> 0)%R.
Proof.
  unfold Coordinates.lla_to_ecef, WGS84.sincosd, WGS84.radians.
  replace (90 * PI / 180)%R with (PI / 2)%R by field.
  rewrite sin_PI2. simpl. unfold WGS84.sqr. rewrite !Rmult_1_r, Rplus_0_r.
  apply polar_radius_positive; [lra|exact WGS84_eccentricity].
Qed.

Lemma equatorial_mirror_witness :
  let self := WGS84.coordinates in
  let lla_to_ecef := Coordinates.lla_to_ecef WGS84.sqr WGS84.sincosd self in
  let ecef_to_lla :=
    Coordinates.ecef_to_lla WGS84.sqr WGS84.atan2d WGS84.degrees self in
  let transform :=
    Coordinates.transform WGS84.sqr WGS84.sincosd WGS84.atan2d
      WGS84.degrees self self in
  let mirror_ecef := fun p : R * R * R => (p.1.1, p.1.2, (- p.2)%R) in
  let mirror_lla := fun p : R * R * R => (p.1.1, (- p.1.2)%R, p.2) in
  lla_to_ecef (0, - 90, 0)%R = mirror_ecef (lla_to_ecef (0, 90, 0)%R) /\
  ecef_to_lla (1, 2, - 3)%R = mirror_lla (ecef_to_lla (1, 2, 3)%R) /\
  transform (0, - 90, 0)%R = mirror_lla (transform (0, 90, 0)%R).
Proof.
  intros self lla_to_ecef ecef_to_lla transform.
  apply (equatorial_mirror WGS84.sqr WGS84.sincosd WGS84.atan2d
           WGS84.degrees self self 0 90 0 1 2 3).
  - intros v. unfold WGS84.sqr. ring.
  - intros angle. unfold WGS84.sincosd, WGS84.radians. simpl.
    replace (- angle * PI / 180)%R with (- (angle * PI / 180))%R by field.
    by rewrite sin_neg, cos_neg.
  - intros v. unfold WGS84.degrees. field. apply PI_neq0.
  - lra.
  - exact WGS84_pole_height.
Defined.

#[local] Set Warnings "-inexact-float".



Lemma windows_nan_distance_witness :
  let cos := Binary64.not_called in
  let sinc := Binary64.not_called in
  window.hamming nan cos nan 1 = 0%float /\
  window.blackman nan nan cos nan 1 = 0%float /\
  window.flat_top nan nan cos nan 1 = 0%float /\
  window.nuttall nan nan cos nan 1 = 0%float /\
  window.blackman_harris nan cos nan 1 = 0%float /\
  window.lanczos sinc nan 1 = 0%float /\
  window.parzen_swot Binary64.pow nan 1 = 0%float /\
  window.parzen Binary64.pow nan 1
  = (if 2 * 1 / 2 <=? 1 then 2 * Binary64.pow (1 - nan / 1) 3 else 0)%float.
Proof.
  intros cos sinc.
  apply (windows_nan_distance nan nan cos Binary64.pow sinc nan 1).
  reflexivity.
Defined.



